(** * linkytic: binary sensors and the BASE energy sensor

    A shallow embedding of [custom_components/linkytic/binary_sensor.py]
    and [sensor.py].  Python methods become computations in a small
    state / trace / exception monad; the host (Home Assistant) and the serial
    reader are external collaborators whose answers are inputs and whose
    calls are recorded as events. *)

From Stdlib Require Import ZArith Lia Ascii DecimalString DecimalPos DecimalZ.
From stdpp Require Import gmap strings list fin_maps.

Local Open Scope string_scope.
Local Open Scope Z_scope.

(** ** Python values and exceptions *)

(** The values that flow through [RelayState._last_state] and [value]:
    [None], a [bool], or an [int]. *)
Inductive pyval : Type :=
| PyNone
| PyBool (b : bool)
| PyInt (z : Z).

Inductive exn : Type :=
| TypeError
| IndexError
| KeyError
| ValueError.

Inductive result (A : Type) : Type :=
| Returned (a : A)
| Raised (e : exn).
Arguments Returned {A} a.
Arguments Raised {A} e.

(** [x is None] *)
Definition is_None (x : pyval) : bool :=
  match x with PyNone => true | _ => false end.

(** Truth value testing ([if x:], [bool(x)]). *)
Definition truthy (x : pyval) : bool :=
  match x with
  | PyNone => false
  | PyBool b => b
  | PyInt z => negb (z =? 0)
  end.

(** [x == True] for the values above ([True] is the integer [1]). *)
Definition eq_True (x : pyval) : bool :=
  match x with
  | PyNone => false
  | PyBool b => b
  | PyInt z => z =? 1
  end.

(** [str(z)] for an [int]. *)
Definition str_of_Z (z : Z) : string :=
  NilZero.string_of_int (Z.to_int z).

(** The decimal writing of an [int] is refused beyond
    [sys.get_int_max_str_digits()] digits, 4300 by default: that is, from
    [10 ** 4300] on in absolute value. *)
Definition int_max_str_digits : Z := 4300.

Definition printable (z : Z) : bool := Z.abs z <? 10 ^ int_max_str_digits.
Arguments printable : simpl never.

(** The text [repr(x)] writes, when it writes one. *)
Definition repr_text (x : pyval) : string :=
  match x with
  | PyNone => "None"
  | PyBool true => "True"
  | PyBool false => "False"
  | PyInt z => str_of_Z z
  end.

(** ** Formatting and indexing of strings *)

(** Binary digits of a positive number, most significant first, pushed in
    front of [acc]. *)
Fixpoint bin_digits (p : positive) (acc : string) : string :=
  match p with
  | xH => String "1"%char acc
  | xO q => bin_digits q (String "0"%char acc)
  | xI q => bin_digits q (String "1"%char acc)
  end.

(** [format(n, "b")] for [n >= 0]. *)
Definition bin_of_N (n : Z) : string :=
  match n with
  | Zpos p => bin_digits p ""
  | _ => "0"
  end.

Fixpoint zeros (n : nat) : string :=
  match n with
  | O => ""
  | S k => String "0"%char (zeros k)
  end.

(** Left padding with ["0"] up to [width] characters; longer strings are
    kept whole. *)
Definition zfill (width : nat) (s : string) : string :=
  zeros (width - String.length s) +:+ s.

(** ["{0:08b}".format(n)]: the sign comes first and counts in the width of
    eight, the digits are never cut. *)
Definition format_08b (n : Z) : string :=
  if n <? 0 then String "-"%char (zfill 7 (bin_of_N (Z.abs n)))
  else zfill 8 (bin_of_N n).

(** [s[i]] on a [str]: negative indices count from the end, anything outside
    raises [IndexError]. *)
Definition str_index (s : string) (i : Z) : result Ascii.ascii :=
  let len := Z.of_nat (String.length s) in
  let j := if i <? 0 then len + i else i in
  if (j <? 0) || (len <=? j) then Raised IndexError
  else match String.get (Z.to_nat j) s with
       | Some c => Returned c
       | None => Raised IndexError
       end.

(** ** Effects *)

Inductive level : Type := DEBUG | INFO | WARNING | ERROR.

(** A computation over a state [St]: it ends by returning or raising, with
    the state reached and the events emitted, in order. *)
Definition trace_M (E St A : Type) : Type := St -> result A * St * list E.

(** Calls that leave the component: log records, and the calls to the reader
    and to the host that return nothing.  The callback handed to the reader
    is a bound method: a computation waiting for its argument. *)
#[local] Set Warnings "-register-all".
Inductive event : Type :=
| Log (lvl : level) (msg : string) (args : list string)
| register_push_notif (tag : string) (cb : bool -> trace_M event unit unit)
| schedule_update_ha_state (unique_id : string) (force_refresh : bool).

Abbreviation M := (trace_M event).

Definition ret {St A} (a : A) : M St A := fun s => (Returned a, s, []).

Definition bind {St A B} (m : M St A) (f : A -> M St B) : M St B :=
  fun s =>
    match m s with
    | (Returned a, s1, t1) =>
        match f a s1 with
        | (r, s2, t2) => (r, s2, (t1 ++ t2)%list)
        end
    | (Raised e, s1, t1) => (Raised e, s1, t1)
    end.

Definition raise {St A} (e : exn) : M St A := fun s => (Raised e, s, []).
Definition get {St} : M St St := fun s => (Returned s, s, []).
Definition modify {St} (f : St -> St) : M St unit := fun s => (Returned tt, f s, []).
Definition emit {St} (e : event) : M St unit := fun s => (Returned tt, s, [e]).
Definition lift {St A} (r : result A) : M St A := fun s => (r, s, []).

Declare Scope py_scope.
Delimit Scope py_scope with py.
Notation "x <- m ;; k" := (bind m (fun x => k))
  (at level 100, m at next level, right associativity) : py_scope.
Notation "m ;; k" := (bind m (fun _ => k))
  (at level 100, right associativity) : py_scope.

(** What a run leaves behind. *)
Definition outcome {St A} (x : result A * St * list event) : result A := x.1.1.
Definition final {St A} (x : result A * St * list event) : St := x.1.2.
Definition events {St A} (x : result A * St * list event) : list event := x.2.

(** [repr(x)]: [ValueError] for an [int] of more than 4300 digits. *)
Definition repr {St} (x : pyval) : M St string :=
  match x with
  | PyInt z => if printable z then ret (repr_text x) else raise ValueError
  | _ => ret (repr_text x)
  end.

(** [int(x)] *)
Definition int {St} (x : pyval) : M St pyval :=
  match x with
  | PyNone => raise TypeError
  | PyBool b => ret (PyInt (if b then 1 else 0))
  | PyInt z => ret (PyInt z)
  end.

(** The integer inside an [int] object. *)
Definition as_Z {St} (x : pyval) : M St Z :=
  match x with
  | PyInt z => ret z
  | PyBool b => ret (if b then 1 else 0)
  | PyNone => raise TypeError
  end.

(** [[f(x) for x in xs]] and [for x in xs: f(x)] *)
Fixpoint mapM {St A B} (f : A -> M St B) (xs : list A) : M St (list B) :=
  match xs with
  | [] => ret []
  | x :: rest => (y <- f x ;; ys <- mapM f rest ;; ret (y :: ys))%py
  end.

(** ** Collaborators that are not part of the sources *)

(** The constants imported from [const.py] and the default of the host's
    [Entity._attr_available] are parameters of the development. *)
Class Const : Type := {
  DOMAIN : string;
  SETUP_TICMODE : string;
  TICMODE_STANDARD : string;
  Entity_attr_available : bool
}.

(** Modelled from the spec: [serial_reader.py] is not among the sources.  A
    reader is taken as the answers it gives at one instant: the latest value
    and timestamp cached for a tag (the value an optional integer), whether a
    full frame has been read, and whether the serial link is up. *)
Record LinkyTICReader : Type := {
  get_values : string -> option Z * option string;
  has_read_full_frame : bool;
  is_connected : bool
}.

Definition of_option (o : option Z) : pyval :=
  match o with
  | None => PyNone
  | Some z => PyInt z
  end.

(** [str(x)] for a [str | None] *)
Definition str_of_opt (o : option string) : string :=
  match o with
  | None => "None"
  | Some s => s
  end.

(** ** [class SerialConnectivity] *)

Module SerialConnectivity.

Record t : Type := {
  _title : string;
  _attr_unique_id : string;
  _device_uniq_id : string
}.

Definition _attr_name : string := "Connectivité du lien série".
Definition _attr_should_poll : bool := true.

Definition __init__ `{Const} {St} (title : string) (uniq_id : option string)
  : M St t :=
  (emit (Log DEBUG "%s: initializing Serial Connectivity binary sensor" [title]) ;;
   ret {| _title := title;
          _attr_unique_id := DOMAIN +:+ "_" +:+ str_of_opt uniq_id +:+ "_serial_connectivity";
          _device_uniq_id := match uniq_id with
                             | Some u => u
                             | None => "yaml_legacy"
                             end |})%py.

(** [serial_controller] is the reader [self._serial_controller] refers to,
    as it stands when the property is read. *)
Definition is_on (serial_controller : LinkyTICReader) (self : t) : bool :=
  is_connected serial_controller.

End SerialConnectivity.

(** ** [class RelayState] *)

Module RelayState.

Record t : Type := {
  _tag : string;
  _config_title : string;
  _config_uniq_id : option string;
  _attr_unique_id : string;
  _attr_name : string;
  _attr_icon : string;
  _relay_index : Z;
  _last_state : pyval;
  _attr_available : bool
}.

Definition _attr_should_poll : bool := false.

Definition set_attr_available (b : bool) (self : t) : t :=
  {| _tag := _tag self; _config_title := _config_title self;
     _config_uniq_id := _config_uniq_id self;
     _attr_unique_id := _attr_unique_id self; _attr_name := _attr_name self;
     _attr_icon := _attr_icon self; _relay_index := _relay_index self;
     _last_state := _last_state self; _attr_available := b |}.

Definition set_last_state (v : pyval) (self : t) : t :=
  {| _tag := _tag self; _config_title := _config_title self;
     _config_uniq_id := _config_uniq_id self;
     _attr_unique_id := _attr_unique_id self; _attr_name := _attr_name self;
     _attr_icon := _attr_icon self; _relay_index := _relay_index self;
     _last_state := v; _attr_available := _attr_available self |}.

Definition set_attr_icon (i : string) (self : t) : t :=
  {| _tag := _tag self; _config_title := _config_title self;
     _config_uniq_id := _config_uniq_id self;
     _attr_unique_id := _attr_unique_id self; _attr_name := _attr_name self;
     _attr_icon := i; _relay_index := _relay_index self;
     _last_state := _last_state self; _attr_available := _attr_available self |}.

Definition update_notification {St} (self : t) (realtime_option : bool)
  : M St unit :=
  emit (schedule_update_ha_state (_attr_unique_id self) true).

(** The f-strings write [relay_index] in decimal; the limit on the digits
    of [repr] is not modelled for it: the setup passes 1 to 8. *)
Definition __init__ `{Const} {St} (title : string) (uniq_id : option string)
    (relay_index : Z) : M St t :=
  (emit (Log DEBUG ("title: initializing binary sensor for relay " +:+ str_of_Z relay_index) []) ;;
   let tag := "RELAIS" in
   let self :=
     {| _tag := tag;
        _config_title := title;
        _config_uniq_id := uniq_id;
        _attr_unique_id :=
          DOMAIN +:+ "_" +:+ str_of_opt uniq_id +:+ "_" +:+ tag +:+ "_" +:+ str_of_Z relay_index;
        _attr_name := "Relais " +:+ str_of_Z relay_index;
        _attr_icon := "mdi:electric-switch";
        _relay_index := relay_index - 1;
        _last_state := PyNone;
        _attr_available := Entity_attr_available |} in
   emit (register_push_notif (_tag self) (update_notification self)) ;;
   ret self)%py.

Definition is_on (self : t) : pyval := _last_state self.

(** [serial_controller] is the reader [self._serial_controller] refers to,
    as it stands when [update] runs. *)
Definition update (serial_controller : LinkyTICReader) : M t unit :=
  (self <- get ;;
   let '(value, _) := get_values serial_controller (_tag self) in
   let value := of_option value in
   shown <- repr value ;;
   emit (Log DEBUG "%s: retrieved %s value from serial controller: %s"
           [_config_title self; _tag self; shown]) ;;
   value <- int value ;;
   if is_None value then
     self <- get ;;
     if _attr_available self && has_read_full_frame serial_controller then
       emit (Log INFO "%s: marking the %s sensor as unavailable: a full frame has been read but RELAIS has not been found"
               [_config_title self; _attr_name self]) ;;
       modify (set_attr_available false)
     else ret tt
   else
     self <- get ;;
     (if negb (_attr_available self) then
        emit (Log INFO "%s: marking the %s sensor as available now ! (was not previously)"
                [_config_title self; _attr_name self]) ;;
        modify (set_attr_available true)
      else ret tt) ;;
     n <- (v <- int value ;; as_Z v) ;;
     let state_bitfield := format_08b n in
     self <- get ;;
     c <- lift (str_index state_bitfield (_relay_index self)) ;;
     modify (set_last_state (PyBool (Ascii.eqb c "1"))) ;;
     self <- get ;;
     (if truthy (_last_state self) then
        modify (set_attr_icon "mdi:electric-switch-closed")
      else
        modify (set_attr_icon "mdi:electric-switch")) ;;
     modify (set_last_state value))%py.

End RelayState.

(** ** [async_setup_entry] *)

Inductive entity : Type :=
| relay (e : RelayState.t)
| connectivity (e : SerialConnectivity.t).

Record ConfigEntry : Type := {
  title : string;
  entry_id : string;
  data : gmap string string
}.

(** The reader stored in [hass.data] is read over time: [r k] is the reader
    [k] seconds after the setup began. *)
Record HomeAssistant : Type := {
  hass_data : gmap string (gmap string (nat -> LinkyTICReader))
}.

(** What the host has seen of a platform being set up: the seconds slept and
    the calls of [async_add_entities], each with its [update_before_add]. *)
Record platform : Type := {
  clock : nat;
  added : list (list entity * bool)
}.

Definition sleep (seconds : nat) : M platform unit :=
  modify (fun p => {| clock := clock p + seconds; added := added p |}).

Definition async_add_entities (new_entities : list entity)
    (update_before_add : bool) : M platform unit :=
  modify (fun p => {| clock := clock p;
                      added := (added p ++ [(new_entities, update_before_add)])%list |}).

(** [d[k]] on a [dict] *)
Definition getitem {St V} (d : gmap string V) (k : string) : M St V :=
  match d !! k with
  | Some v => ret v
  | None => raise KeyError
  end.

(** [try: body except KeyError: handler] *)
Definition try_except_KeyError {St A} (body : M St A) (handler : M St A)
    : M St A :=
  fun s =>
    match body s with
    | (Raised KeyError, s1, t1) =>
        match handler s1 with
        | (r, s2, t2) => (r, s2, (t1 ++ t2)%list)
        end
    | x => x
    end.

(** [range(a, b)] *)
Definition range (a b : Z) : list Z :=
  map (fun k => a + Z.of_nat k) (seq 0 (Z.to_nat (b - a))).

(** [for i in range(9): ...], over the indices still to come; [break] leaves
    the loop. *)
Fixpoint wait_full_frame (config_entry : ConfigEntry)
    (serial_reader : nat -> LinkyTICReader) (indices : list Z)
    : M platform unit :=
  match indices with
  | [] => ret tt
  | i :: rest =>
      (sleep 1 ;;
       p <- get ;;
       if has_read_full_frame (serial_reader (clock p)) then
         emit (Log DEBUG "%s: a full frame has been read, initializing sensors"
                 [title config_entry])
       else
         (if i =? 8 then
            emit (Log WARNING "%s: wait time is over but a full frame has yet to be read: initializing sensors anyway"
                    [title config_entry])
          else ret tt) ;;
         wait_full_frame config_entry serial_reader rest)%py
  end.

(** The [return] of the [except] block ends the function: the [try]
    statement yields the reader, or [None] once the handler has run, and
    nothing follows in that case. *)
Definition async_setup_entry `{Const} (hass : HomeAssistant)
    (config_entry : ConfigEntry) : M platform unit :=
  (emit (Log DEBUG "%s: setting up binary sensor plateform" [title config_entry]) ;;
   found <- try_except_KeyError
     (d <- getitem (hass_data hass) DOMAIN ;;
      serial_reader <- getitem d (entry_id config_entry) ;;
      ret (Some serial_reader))
     (emit (Log ERROR "%s: can not init binaries sensors: failed to get the serial reader object"
              [title config_entry]) ;;
      ret None) ;;
   match found with
   | None => ret tt
   | Some serial_reader =>
       emit (Log DEBUG "%s: waiting at most 9s before setting up binary sensor plateform in order for the async serial reader to have time to parse a full frame"
               [title config_entry]) ;;
       wait_full_frame config_entry serial_reader (range 0 9) ;;
       (if decide (data config_entry !! SETUP_TICMODE = Some TICMODE_STANDARD) then
          relays <- mapM (fun i => RelayState.__init__ (title config_entry)
                                     (Some (entry_id config_entry)) i)
                         (range 1 9) ;;
          async_add_entities (map relay relays) true
        else ret tt) ;;
       c <- SerialConnectivity.__init__ (title config_entry)
              (Some (entry_id config_entry)) ;;
       async_add_entities [connectivity c] true
   end)%py.

(** ** [sensor.py]: the BASE energy sensor *)

Inductive SensorDeviceClass : Type := ENERGY.
Inductive SensorStateClass : Type := TOTAL_INCREASING.

Module BASE.

(** The class sets no instance attribute: an instance is its identity. *)
Record t : Type := instance { }.

Definition _attr_icon : string := "mdi:counter".
Definition _attr_name : string := "Index option Base".
Definition _attr_should_poll : bool := false.
Definition _attr_unique_id : string := "base".
Definition _attr_device_class : SensorDeviceClass := ENERGY.
Definition _attr_native_value : Z := 42.
Definition _attr_native_unit_of_measurement : string := "Wh".
Definition _attr_state_class : SensorStateClass := TOTAL_INCREASING.

Definition __init__ {St} : M St t :=
  (emit (Log DEBUG "initing BASE sensor" []) ;; ret instance)%py.

(** The host's [SensorEntity] properties read the [_attr_] attributes,
    found on the class since no instance shadows them. *)
Definition native_value (self : t) : Z := _attr_native_value.
Definition native_unit_of_measurement (self : t) : string :=
  _attr_native_unit_of_measurement.
Definition state_class (self : t) : SensorStateClass := _attr_state_class.

End BASE.

(** The platform of [sensor.py]: the calls of [async_add_entities]. *)
Definition async_setup_platform {Hass Config Discovery : Type} (hass : Hass)
    (config : Config) (discovery_info : option Discovery)
    : M (list (list BASE.t * bool)) unit :=
  (emit (Log WARNING "lixee adding sensors" []) ;;
   b <- BASE.__init__ ;;
   modify (fun calls => (calls ++ [([b], true)])%list))%py.

(** ** Concrete inputs *)

(** The constants as the integration sets them, with the host's default
    availability. *)
Definition linkytic_const : Const :=
  {| DOMAIN := "linkytic";
     SETUP_TICMODE := "tic_mode";
     TICMODE_STANDARD := "standard";
     Entity_attr_available := true |}.

(** A reader that caches [raw] for ["RELAIS"] and nothing else. *)
Definition reader_with (raw : option Z) (full_frame : bool) : LinkyTICReader :=
  {| get_values := fun tag => if String.eqb tag "RELAIS" then (raw, None) else (None, None);
     has_read_full_frame := full_frame;
     is_connected := true |}.

(** The entity [RelayState(title, uniq_id, serial_reader, relay_index)]
    built under the given constants, once [__init__] has returned. *)
Definition constructed (c : Const) (title : string) (uniq_id : option string)
    (relay_index : Z) : option RelayState.t :=
  match outcome (@RelayState.__init__ c unit title uniq_id relay_index tt) with
  | Returned self => Some self
  | Raised _ => None
  end.

(** Relay 1 of the entry ["abc"], never updated. *)
Definition relay_1 : RelayState.t :=
  {| RelayState._tag := "RELAIS";
     RelayState._config_title := "Linky";
     RelayState._config_uniq_id := Some "abc";
     RelayState._attr_unique_id := "linkytic_abc_RELAIS_1";
     RelayState._attr_name := "Relais 1";
     RelayState._attr_icon := "mdi:electric-switch";
     RelayState._relay_index := 0;
     RelayState._last_state := PyNone;
     RelayState._attr_available := true |}.

(** ** Observations on a run of [update] *)

(** The records by which an availability transition is announced. *)
Definition is_transition (e : event) : bool :=
  match e with
  | Log INFO _ _ => true
  | _ => false
  end.

Definition transitions (t : list event) : list event := List.filter is_transition t.

(** The callbacks the reader has been given for [tag]. *)
Fixpoint registered (tag : string) (t : list event)
    : list (bool -> M unit unit) :=
  match t with
  | [] => []
  | register_push_notif tag' cb :: rest =>
      if String.eqb tag tag' then cb :: registered tag rest
      else registered tag rest
  | _ :: rest => registered tag rest
  end.

(** Bit [i] of the byte [v], counted from the most significant one. *)
Definition msb_bit (v i : Z) : bool := Z.testbit v (7 - i).

(** An entity as [__init__] leaves its tag and index for a relay 1 to 8. *)
Definition well_formed (self : RelayState.t) : Prop :=
  RelayState._tag self = "RELAIS" /\ 0 <= RelayState._relay_index self <= 7.

(** The debug record every run of [update] starts with. *)
Definition retrieved (self : RelayState.t) (value : pyval) : event :=
  Log DEBUG "%s: retrieved %s value from serial controller: %s"
    [RelayState._config_title self; RelayState._tag self; repr_text value].

(** The entity once the availability block of the [else] branch is past. *)
Definition made_available (self : RelayState.t) : RelayState.t :=
  if RelayState._attr_available self then self
  else RelayState.set_attr_available true self.

(** The record that block emits, if any. *)
Definition announced (self : RelayState.t) : list event :=
  if RelayState._attr_available self then []
  else [Log INFO "%s: marking the %s sensor as available now ! (was not previously)"
          [RelayState._config_title self; RelayState._attr_name self]].

(** Relay 1 of the entry ["abc"], marked unavailable. *)
Definition relay_1_unavailable : RelayState.t :=
  RelayState.set_attr_available false relay_1.

(** A host with no reader stored, and the entry that asks for one. *)
Definition hass_empty : HomeAssistant := {| hass_data := ∅ |}.

Definition entry_abc : ConfigEntry :=
  {| title := "Linky"; entry_id := "abc";
     data := {[ "tic_mode" := "standard" ]} |}.

Definition platform_0 : platform := {| clock := 0; added := [] |}.

(** ** [device_info] *)

(** The [DID_] constants of [const.py] that the module imports are
    parameters as well. *)
Class ConstDID : Type := {
  DID_CONNECTION_TYPE : string;
  DID_CONSTRUCTOR : string;
  DID_DEFAULT_NAME : string;
  DID_REGNUMBER : string;
  DID_TYPE : string
}.

(** The names bound by [from .const import (...)], lines 16 to 23, with
    their values.  No other statement of the module binds a constant. *)
Definition const_imports `{Const} `{ConstDID} : list (string * string) :=
  [("DID_CONNECTION_TYPE", DID_CONNECTION_TYPE);
   ("DID_CONSTRUCTOR", DID_CONSTRUCTOR);
   ("DID_DEFAULT_NAME", DID_DEFAULT_NAME);
   ("DID_REGNUMBER", DID_REGNUMBER);
   ("DID_TYPE", DID_TYPE);
   ("DOMAIN", DOMAIN);
   ("SETUP_TICMODE", SETUP_TICMODE);
   ("TICMODE_STANDARD", TICMODE_STANDARD)].

(** What reading a property can raise: a name the module does not bind, or
    a key the dictionary does not hold. *)
Inductive info_exn : Type :=
| NameError (name : string)
| KeyError_of (key : string).

Fixpoint assoc (name : string) (l : list (string * string)) : option string :=
  match l with
  | [] => None
  | (n, v) :: rest => if String.eqb name n then Some v else assoc name rest
  end.

(** Evaluation of a global name of the module. *)
Definition load_global `{Const} `{ConstDID} (name : string)
    : info_exn + string :=
  match assoc name const_imports with
  | Some v => inr v
  | None => inl (NameError name)
  end.

(** [d[k]] on the reader's [device_identification]. *)
Definition subscript (d : gmap string string) (k : string)
    : info_exn + string :=
  match d !! k with
  | Some v => inr v
  | None => inl (KeyError_of k)
  end.

Definition info_bind {A B} (x : info_exn + A) (f : A -> info_exn + B)
    : info_exn + B :=
  match x with
  | inl e => inl e
  | inr a => f a
  end.

Declare Scope info_scope.
Delimit Scope info_scope with info.
Notation "x <- m ;; k" := (info_bind m (fun x => k))
  (at level 100, m at next level, right associativity) : info_scope.

(** The keyword arguments the two classes pass to the host's [DeviceInfo]. *)
Record DeviceInfo : Type := {
  default_manufacturer : option string;
  default_model : option string;
  default_name : option string;
  identifiers : list (string * option string);
  manufacturer : option string;
  model : option string;
  name : option string
}.

(** [SerialConnectivity.device_info]: the arguments are evaluated in the
    order they are written; [device_identification] is the reader's. *)
Definition SerialConnectivity_device_info `{Const} `{ConstDID}
    (device_identification : gmap string string)
    (self : SerialConnectivity.t) : info_exn + DeviceInfo :=
  (domain <- load_global "DOMAIN" ;;
   k_reg <- load_global "DID_REGNUMBER" ;;
   regnumber <- subscript device_identification k_reg ;;
   k_cons <- load_global "DID_CONSTRUCTOR" ;;
   constructor_ <- subscript device_identification k_cons ;;
   k_type <- load_global "DID_TYPE" ;;
   type_ <- subscript device_identification k_type ;;
   default_name_ <- load_global "DID_DEFAULT_NAME" ;;
   inr {| default_manufacturer := None;
          default_model := None;
          default_name := None;
          identifiers := [(domain, Some regnumber)];
          manufacturer := Some constructor_;
          model := Some type_;
          name := Some default_name_ |})%info.

(** [RelayState.device_info] *)
Definition RelayState_device_info `{Const} `{ConstDID}
    (device_identification : gmap string string)
    (self : RelayState.t) : info_exn + DeviceInfo :=
  (default_manufacturer_ <- load_global "DID_DEFAULT_MANUFACTURER" ;;
   default_model_ <- load_global "DID_DEFAULT_MODEL" ;;
   default_name_ <- load_global "DID_DEFAULT_NAME" ;;
   domain <- load_global "DOMAIN" ;;
   k_cons <- load_global "DID_CONSTRUCTOR" ;;
   constructor_ <- subscript device_identification k_cons ;;
   k_type <- load_global "DID_TYPE" ;;
   type_ <- subscript device_identification k_type ;;
   inr {| default_manufacturer := Some default_manufacturer_;
          default_model := Some default_model_;
          default_name := Some default_name_;
          identifiers := [(domain, RelayState._config_uniq_id self)];
          manufacturer := Some constructor_;
          model := Some type_;
          name := None |})%info.

(** ** Successive updates and the entities of a platform *)

(** The entity after [update] has run against each reader in turn; a run
    that raises leaves the entity as it stood when it raised. *)
Definition updates (rds : list LinkyTICReader) (self : RelayState.t)
    : RelayState.t :=
  fold_left (fun s rd => final (RelayState.update rd s)) rds self.

(** What a relay reports after the readers of [rds] have been seen in
    turn, starting from [acc]: the latest value cached for ["RELAIS"] among
    those that can be written in decimal. *)
Definition latest_value (acc : pyval) (rds : list LinkyTICReader) : pyval :=
  fold_left (fun acc rd =>
               match (get_values rd "RELAIS").1 with
               | Some v => if printable v then PyInt v else acc
               | None => acc
               end) rds acc.

(** Every callback handed to the reader, with its tag, in order. *)
Fixpoint registrations (t : list event)
    : list (string * (bool -> M unit unit)) :=
  match t with
  | [] => []
  | register_push_notif tag cb :: rest => (tag, cb) :: registrations rest
  | _ :: rest => registrations rest
  end.

(** [isinstance(x, bool)] *)
Definition is_bool (x : pyval) : bool :=
  match x with PyBool _ => true | _ => false end.

Definition is_warning (e : event) : bool :=
  match e with
  | Log WARNING _ _ => true
  | _ => false
  end.

(** The record of the dead branch of [update]. *)
Definition is_unavailable_record (e : event) : bool :=
  match e with
  | Log INFO msg _ =>
      String.eqb msg "%s: marking the %s sensor as unavailable: a full frame has been read but RELAIS has not been found"
  | _ => false
  end.

Definition unique_id_of (e : entity) : string :=
  match e with
  | relay r => RelayState._attr_unique_id r
  | connectivity c => SerialConnectivity._attr_unique_id c
  end.

(** The relays among the entities handed to the host, in order. *)
Definition relays_of (l : list entity) : list RelayState.t :=
  omap (fun e => match e with relay r => Some r | connectivity _ => None end) l.

(** All the entities a platform has handed to the host, in order. *)
Definition entities_of (p : platform) : list entity :=
  concat (map fst (added p)).

(** [hass.data[DOMAIN][config_entry.entry_id]], when both keys are there. *)
Definition stored_reader `{Const} (hass : HomeAssistant)
    (config_entry : ConfigEntry) : option (nat -> LinkyTICReader) :=
  hass_data hass !! DOMAIN ≫= (fun d => d !! entry_id config_entry).

(** Whether the entry asks for the standard mode. *)
Definition standard_mode `{Const} (config_entry : ConfigEntry) : bool :=
  bool_decide (data config_entry !! SETUP_TICMODE = Some TICMODE_STANDARD).

(** The relays [async_setup_entry] builds in standard mode, with the
    events of their construction and the connectivity sensor that follows. *)
Definition setup_relays `{Const} (config_entry : ConfigEntry)
    : list RelayState.t :=
  match outcome (mapM (fun i => RelayState.__init__ (St:=unit) (title config_entry)
                                  (Some (entry_id config_entry)) i)
                   (range 1 9) tt) with
  | Returned l => l
  | Raised _ => []
  end.

Definition setup_relay_events `{Const} (config_entry : ConfigEntry)
    : list event :=
  events (mapM (fun i => RelayState.__init__ (St:=unit) (title config_entry)
                           (Some (entry_id config_entry)) i)
            (range 1 9) tt).

Definition setup_connectivity `{Const} (config_entry : ConfigEntry)
    : option SerialConnectivity.t :=
  match outcome (SerialConnectivity.__init__ (St:=unit) (title config_entry)
                   (Some (entry_id config_entry)) tt) with
  | Returned sc => Some sc
  | Raised _ => None
  end.

(** The polls of [has_read_full_frame] during the seconds [t0 + 1] to
    [t0 + k] all answer no. *)
Definition no_frame_during (serial_reader : nat -> LinkyTICReader)
    (t0 k : nat) : bool :=
  forallb (fun j => negb (has_read_full_frame (serial_reader (t0 + j)%nat)))
    (seq 1 k).

(** Values for the [DID_] constants, for the concrete inputs. *)
Definition linkytic_did : ConstDID :=
  {| DID_CONNECTION_TYPE := "serial_conn";
     DID_CONSTRUCTOR := "constructor";
     DID_DEFAULT_NAME := "Linky TIC";
     DID_REGNUMBER := "reg_number";
     DID_TYPE := "type" |}.

(** A reader that sees a full frame from the third second on, and a host
    that stores it for the entry ["abc"]. *)
Definition reader_abc : nat -> LinkyTICReader :=
  fun k => reader_with (Some 130) (Nat.leb 3 k).

Definition hass_abc : HomeAssistant :=
  {| hass_data := {[ "linkytic" := {[ "abc" := reader_abc ]} ]} |}.

(** The entry ["abc"] in another mode than the standard one. *)
Definition entry_historic : ConfigEntry :=
  {| title := "Linky"; entry_id := "abc";
     data := {[ "tic_mode" := "hist" ]} |}.

(** The value a run of [update] goes through with: one that [repr] can
    write. *)
Definition usable (rd : LinkyTICReader) (self : RelayState.t) : bool :=
  match (get_values rd (RelayState._tag self)).1 with
  | Some v => printable v
  | None => false
  end.

(** * Properties *)

(** ** Strings *)

Lemma length_zeros (n : nat) : String.length (zeros n) = n.
Proof. induction n as [|n IH]; simpl; [reflexivity | now rewrite IH]. Qed.

Lemma length_append (s1 s2 : string) :
  String.length (s1 +:+ s2) = (String.length s1 + String.length s2)%nat.
Proof. induction s1 as [|c s1 IH]; simpl; [reflexivity | now rewrite IH]. Qed.

Lemma length_zfill (w : nat) (s : string) :
  (w <= String.length (zfill w s))%nat.
Proof. unfold zfill. rewrite length_append, length_zeros. lia. Qed.

(** The formatted field is never shorter than eight characters. *)
Lemma length_format_08b (n : Z) : (8 <= String.length (format_08b n))%nat.
Proof.
  unfold format_08b. destruct (n <? 0).
  - simpl. pose proof (length_zfill 7 (bin_of_N (Z.abs n))). lia.
  - apply length_zfill.
Qed.

Lemma get_in_range (s : string) (k : nat) :
  (k < String.length s)%nat -> exists c, String.get k s = Some c.
Proof.
  revert k. induction s as [|a s IH]; intros k Hk; simpl in Hk; [lia|].
  destruct k as [|k]; simpl; [eauto|]. apply IH. lia.
Qed.

(** Indexing inside the first eight characters of a formatted field never
    raises. *)
Lemma str_index_format_08b (n i : Z) :
  0 <= i <= 7 -> exists c, str_index (format_08b n) i = Returned c.
Proof.
  intros Hi. pose proof (length_format_08b n) as Hl. unfold str_index.
  destruct (i <? 0) eqn:Hneg; [lia|].
  replace ((i <? 0) || (Z.of_nat (String.length (format_08b n)) <=? i)) with false
    by (symmetry; apply orb_false_iff; split; lia).
  destruct (get_in_range (format_08b n) (Z.to_nat i)) as [c Hc]; [lia|].
  rewrite Hc. eauto.
Qed.

Lemma elem_of_range (a b x : Z) : a <= x < b -> In x (range a b).
Proof.
  intros Hx. unfold range. apply in_map_iff.
  exists (Z.to_nat (x - a)). split; [lia|]. apply in_seq. lia.
Qed.

(** Line 197 decodes a byte correctly: the character read at [i] is ["1"]
    exactly when bit [i], most significant first, is set. *)
Lemma decode_byte (v i : Z) :
  0 <= v <= 255 -> 0 <= i <= 7 ->
  str_index (format_08b v) i
  = Returned (if msb_bit v i then "1"%char else "0"%char).
Proof.
  intros Hv Hi.
  assert (Hall : forallb (fun v =>
            forallb (fun i =>
              match str_index (format_08b v) i with
              | Returned c => Ascii.eqb c (if msb_bit v i then "1"%char else "0"%char)
              | Raised _ => false
              end) (range 0 8)) (range 0 256) = true) by (vm_compute; reflexivity).
  rewrite forallb_forall in Hall.
  specialize (Hall v (elem_of_range 0 256 v ltac:(lia))).
  rewrite forallb_forall in Hall.
  specialize (Hall i (elem_of_range 0 8 i ltac:(lia))).
  destruct (str_index (format_08b v) i) as [c|]; [|discriminate].
  apply Ascii.eqb_eq in Hall. congruence.
Qed.

(** ** [RelayState.update], case by case *)

Section Update.

Import RelayState.

Variable serial_controller : LinkyTICReader.
Variable self : RelayState.t.

(** No value: [int(None)] raises before anything is written. *)
Lemma update_absent :
  (get_values serial_controller (_tag self)).1 = None ->
  update serial_controller self
  = (Raised TypeError, self, [retrieved self PyNone]).
Proof.
  intros H. unfold update, bind, get, emit.
  destruct (get_values serial_controller (_tag self)) as [value ts].
  simpl in H. subst value. reflexivity.
Qed.

(** A value: the [is None] branch is skipped, the bit is decoded into the
    icon, and the raw value is what [_last_state] ends with. *)
Lemma update_present (v : Z) :
  (get_values serial_controller (_tag self)).1 = Some v ->
  printable v = true ->
  update serial_controller self =
    match str_index (format_08b v) (_relay_index self) with
    | Returned c =>
        (Returned tt,
         set_last_state (PyInt v)
           (set_attr_icon (if Ascii.eqb c "1" then "mdi:electric-switch-closed"
                           else "mdi:electric-switch")
              (set_last_state (PyBool (Ascii.eqb c "1")) (made_available self))),
         retrieved self (PyInt v) :: announced self)
    | Raised e =>
        (Raised e, made_available self, retrieved self (PyInt v) :: announced self)
    end.
Proof.
  intros H Hp. unfold update, bind, get, emit, made_available, announced.
  destruct (get_values serial_controller (_tag self)) as [value ts].
  simpl in H. subst value. unfold of_option, repr. rewrite Hp. simpl.
  destruct (_attr_available self); simpl;
    destruct (str_index (format_08b v) (_relay_index self)) as [c|e]; simpl;
    try reflexivity; destruct (Ascii.eqb c "1"); reflexivity.
Qed.

(** A value of more than 4300 digits: [repr(value)] raises before the record
    is logged and before anything is written. *)
Lemma update_too_long (v : Z) :
  (get_values serial_controller (_tag self)).1 = Some v ->
  printable v = false ->
  update serial_controller self = (Raised ValueError, self, []).
Proof.
  intros H Hp. unfold update, bind, get.
  destruct (get_values serial_controller (_tag self)) as [value ts].
  simpl in H. subst value. unfold of_option, repr. rewrite Hp. reflexivity.
Qed.

End Update.

(** A byte is well within the digits [repr] writes. *)
Lemma byte_printable (v : Z) : 0 <= v <= 255 -> printable v = true.
Proof.
  intros Hv. unfold printable. apply Z.ltb_lt.
  apply Z.lt_le_trans with 256; [lia|].
  apply Z.leb_le. vm_compute. reflexivity.
Qed.

Lemma made_available_available (self : RelayState.t) :
  RelayState._attr_available (made_available self) = true.
Proof.
  unfold made_available.
  destruct (RelayState._attr_available self) eqn:E; [exact E | reflexivity].
Qed.

Lemma made_available_fields (self : RelayState.t) :
  RelayState._tag (made_available self) = RelayState._tag self
  /\ RelayState._relay_index (made_available self) = RelayState._relay_index self
  /\ RelayState._last_state (made_available self) = RelayState._last_state self.
Proof.
  unfold made_available. destruct (RelayState._attr_available self); auto.
Qed.

(** [__init__] returns, and leaves a well-formed entity for relays 1 to 8. *)
Lemma init_well_formed (c : Const) (title : string) (uniq_id : option string)
    (relay_index : Z) :
  1 <= relay_index <= 8 ->
  exists self, constructed c title uniq_id relay_index = Some self
    /\ well_formed self.
Proof.
  intros Hi. eexists. split; [reflexivity|].
  split; [reflexivity | simpl; lia].
Qed.

(** With a byte cached, [update] returns; the icon shows the decoded bit and
    [is_on] hands back the byte itself. *)
Lemma update_byte (rd : LinkyTICReader) (self : RelayState.t) (v : Z) :
  well_formed self ->
  (get_values rd "RELAIS").1 = Some v ->
  0 <= v <= 255 ->
  let r := RelayState.update rd self in
  outcome r = Returned tt
  /\ RelayState.is_on (final r) = PyInt v
  /\ RelayState._attr_icon (final r)
     = (if msb_bit v (RelayState._relay_index self)
        then "mdi:electric-switch-closed" else "mdi:electric-switch").
Proof.
  intros [Htag Hidx] Hv Hbyte r. subst r.
  rewrite (update_present rd self v)
    by (try apply byte_printable; try rewrite Htag; assumption).
  rewrite decode_byte by assumption.
  destruct (msb_bit v (RelayState._relay_index self)); repeat split.
Qed.

(** What a run of [update] on a cached value leaves: tag and index as they
    were, the entity available, the transition announced only if it was not,
    and [is_on] the raw value unless the indexing raised. *)
Lemma update_present_summary (rd : LinkyTICReader) (self : RelayState.t) (v : Z) :
  (get_values rd (RelayState._tag self)).1 = Some v ->
  printable v = true ->
  let r := RelayState.update rd self in
  RelayState._tag (final r) = RelayState._tag self
  /\ RelayState._relay_index (final r) = RelayState._relay_index self
  /\ RelayState._attr_available (final r) = true
  /\ transitions (events r) = announced self
  /\ RelayState.is_on (final r)
     = match str_index (format_08b v) (RelayState._relay_index self) with
       | Returned _ => PyInt v
       | Raised _ => RelayState.is_on self
       end.
Proof.
  intros Hv Hp r. subst r. rewrite (update_present rd self v Hv Hp).
  destruct (made_available_fields self) as (Htag & Hidx & Hlast).
  pose proof (made_available_available self) as Hav.
  assert (Hann : transitions (retrieved self (PyInt v) :: announced self) = announced self).
  { unfold announced. destruct (RelayState._attr_available self); reflexivity. }
  destruct (str_index (format_08b v) (RelayState._relay_index self)) as [c|e];
    unfold final, events; cbn [fst snd]; repeat split; assumption.
Qed.

(** [update] keeps an entity well formed, however it ends. *)
Lemma update_well_formed (rd : LinkyTICReader) (self : RelayState.t) :
  well_formed self -> well_formed (final (RelayState.update rd self)).
Proof.
  intros [Htag Hidx].
  destruct (get_values rd (RelayState._tag self)).1 as [v|] eqn:Hv;
    [destruct (printable v) eqn:Hp|].
  - destruct (update_present_summary rd self v Hv Hp) as (Ht & Hi & _).
    split; [rewrite Ht | rewrite Hi]; assumption.
  - rewrite (update_too_long rd self v Hv Hp). split; assumption.
  - rewrite (update_absent rd self Hv). split; assumption.
Qed.

(** With the reader stored and the standard mode configured, the setup
    registers the eight relays, then the connectivity sensor, and each relay
    has handed its callback to the reader. *)
Example setup_with_reader :
  let hass := {| hass_data :=
                   {[ "linkytic" := {[ "abc" := fun k => reader_with (Some 130) (Nat.leb 3 k) ]} ]} |} in
  let r := @async_setup_entry linkytic_const hass entry_abc platform_0 in
  outcome r = Returned tt
  /\ clock (final r) = 3%nat
  /\ map (fun call => (length call.1, call.2)) (added (final r))
     = [(8%nat, true); (1%nat, true)]
  /\ length (registered "RELAIS" (events r)) = 8%nat.
Proof. vm_compute. repeat split. Qed.

(** ** The relay state reported after an update *)

(** C1. The claim is that after [update] the state reported by [is_on] is
    true exactly when bit [i-1] of the byte, most significant first, is set.
    Here relay 1 is updated from the byte [1] ([00000001]): bit 0 is clear and
    the icon is the open switch, yet [is_on] hands back the raw value [1],
    which is true. *)
Theorem C1_is_on_reports_the_raw_value :
  let r := RelayState.update (reader_with (Some 1) true) relay_1 in
  constructed linkytic_const "Linky" (Some "abc") 1 = Some relay_1
  /\ outcome r = Returned tt
  /\ msb_bit 1 (1 - 1) = false
  /\ RelayState._attr_icon (final r) = "mdi:electric-switch"
  /\ RelayState.is_on (final r) = PyInt 1
  /\ truthy (RelayState.is_on (final r)) = true
  /\ eq_True (RelayState.is_on (final r)) = true.
Proof. vm_compute. repeat split. Qed.

(** C2. The claim is that an absent value, on an available entity and with a
    full frame read, makes [update] complete with the availability revoked.
    Here [update] runs on such an entity: it ends in [TypeError] at
    [int(None)], and the entity is still marked available. *)
Theorem C2_absent_value_raises_TypeError :
  let rd := reader_with None true in
  let r := RelayState.update rd relay_1 in
  (get_values rd "RELAIS").1 = None
  /\ RelayState._attr_available relay_1 = true
  /\ has_read_full_frame rd = true
  /\ outcome r = Raised TypeError
  /\ RelayState._attr_available (final r) = true.
Proof. vm_compute. repeat split. Qed.

(** C3, as stated, fails at the raw value 256 on relay 1: [update] returns
    instead of raising, and the observed state is not the prior one. *)
Lemma C3_out_of_range_is_accepted :
  let r := RelayState.update (reader_with (Some 256) true) relay_1 in
  outcome r = Returned tt
  /\ RelayState.is_on (final r) <> RelayState.is_on relay_1.
Proof. vm_compute. split; [reflexivity | discriminate]. Qed.

(** C3, amended. For every raw value outside the 8-bit range and every relay
    1 to 8: when the value has at most 4300 decimal digits, [update] returns
    without raising, leaves the entity available, chooses the icon by the
    character at the relay's position in the binary formatting of the whole
    value, which is neither cut nor wrapped to eight bits, and leaves an
    observed state that does not depend on the prior one, which is not kept;
    when the value has more digits, [update] raises [ValueError] at
    [repr(value)], before anything is written. *)
Theorem C3_out_of_range_decodes_untruncated
    (rd : LinkyTICReader) (self : RelayState.t) (v : Z) (prior : pyval) :
  well_formed self ->
  (get_values rd "RELAIS").1 = Some v ->
  v < 0 \/ 255 < v ->
  let r := RelayState.update rd self in
  if printable v then
    outcome r = Returned tt
    /\ RelayState._attr_available (final r) = true
    /\ (exists c,
          str_index (format_08b v) (RelayState._relay_index self) = Returned c
          /\ RelayState._attr_icon (final r)
             = (if Ascii.eqb c "1" then "mdi:electric-switch-closed"
                else "mdi:electric-switch"))
    /\ RelayState.is_on
         (final (RelayState.update rd (RelayState.set_last_state prior self)))
       = RelayState.is_on (final r)
  else
    outcome r = Raised ValueError /\ final r = self.
Proof.
  intros [Htag Hidx] Hv _ r. subst r.
  destruct (printable v) eqn:Hp.
  - rewrite (update_present rd self v) by (try rewrite Htag; assumption).
    rewrite (update_present rd (RelayState.set_last_state prior self) v)
      by (try (cbn; rewrite Htag); assumption).
    cbn [RelayState._relay_index RelayState.set_last_state].
    destruct (str_index_format_08b v (RelayState._relay_index self) Hidx) as [c Hc].
    rewrite Hc. repeat split.
    + apply made_available_available.
    + exists c. split; reflexivity.
  - rewrite (update_too_long rd self v) by (try rewrite Htag; assumption).
    split; reflexivity.
Qed.

Lemma C3_out_of_range_decodes_untruncated_witness :
  let rd := reader_with (Some 256) true in
  let r := RelayState.update rd relay_1 in
  if printable 256 then
    outcome r = Returned tt
    /\ RelayState._attr_available (final r) = true
    /\ (exists c,
          str_index (format_08b 256) (RelayState._relay_index relay_1) = Returned c
          /\ RelayState._attr_icon (final r)
             = (if Ascii.eqb c "1" then "mdi:electric-switch-closed"
                else "mdi:electric-switch"))
    /\ RelayState.is_on
         (final (RelayState.update rd (RelayState.set_last_state (PyInt 7) relay_1)))
       = RelayState.is_on (final r)
  else
    outcome r = Raised ValueError /\ final r = relay_1.
Proof.
  apply (C3_out_of_range_decodes_untruncated (reader_with (Some 256) true)
           relay_1 256 (PyInt 7)).
  - split; [reflexivity | simpl; lia].
  - reflexivity.
  - right. lia.
Defined.

(** C4. Two runs of [update] against the same reader answers leave the same
    [is_on] and the same availability; the second run announces no
    transition, the first at most one, and a run announces a transition
    exactly when it flips the availability flag. *)
Theorem C4_update_idempotent (rd : LinkyTICReader) (self : RelayState.t) :
  let r1 := RelayState.update rd self in
  let r2 := RelayState.update rd (final r1) in
  RelayState.is_on (final r2) = RelayState.is_on (final r1)
  /\ RelayState._attr_available (final r2) = RelayState._attr_available (final r1)
  /\ transitions (events r2) = []
  /\ (length (transitions (events r1)) <= 1)%nat
  /\ transitions (events r1)
     = (if Bool.eqb (RelayState._attr_available (final r1))
                    (RelayState._attr_available self)
        then [] else announced self).
Proof.
  intros r1 r2.
  destruct (get_values rd (RelayState._tag self)).1 as [v|] eqn:Hv;
    [destruct (printable v) eqn:Hp|].
  - destruct (update_present_summary rd self v Hv Hp)
      as (Htag1 & Hidx1 & Hav1 & Htr1 & Hon1).
    fold r1 in Htag1, Hidx1, Hav1, Htr1, Hon1.
    assert (Hv1 : (get_values rd (RelayState._tag (final r1))).1 = Some v)
      by (rewrite Htag1; exact Hv).
    destruct (update_present_summary rd (final r1) v Hv1 Hp)
      as (_ & _ & Hav2 & Htr2 & Hon2).
    fold r2 in Hav2, Htr2, Hon2.
    assert (Hquiet : announced (final r1) = [])
      by (unfold announced; rewrite Hav1; reflexivity).
    repeat split.
    + rewrite Hon2, Hon1, Hidx1.
      destruct (str_index (format_08b v) (RelayState._relay_index self));
        reflexivity.
    + congruence.
    + congruence.
    + rewrite Htr1. unfold announced.
      destruct (RelayState._attr_available self); simpl; lia.
    + rewrite Htr1, Hav1. unfold announced.
      destruct (RelayState._attr_available self); reflexivity.
  - assert (H1 : r1 = (Raised ValueError, self, []))
      by apply (update_too_long rd self v Hv Hp).
    assert (H2 : r2 = (Raised ValueError, self, [])).
    { subst r2. rewrite H1. apply (update_too_long rd self v Hv Hp). }
    rewrite H1, H2. unfold final, events. cbn [fst snd].
    rewrite Bool.eqb_reflx. repeat split; simpl; lia.
  - assert (H1 : r1 = (Raised TypeError, self, [retrieved self PyNone]))
      by apply (update_absent rd self Hv).
    assert (H2 : r2 = (Raised TypeError, self, [retrieved self PyNone])).
    { subst r2. rewrite H1. apply (update_absent rd self Hv). }
    rewrite H1, H2. unfold final, events. cbn [fst snd].
    rewrite Bool.eqb_reflx. repeat split; simpl; lia.
Qed.




(** C6. Whatever the entity's state, an update that finds no value for
    ["RELAIS"] while no full frame has been read changes neither the
    availability flag nor the last observed state. *)
Theorem C6_absent_without_frame_changes_nothing
    (rd : LinkyTICReader) (self : RelayState.t) :
  RelayState._tag self = "RELAIS" ->
  (get_values rd "RELAIS").1 = None ->
  has_read_full_frame rd = false ->
  let r := RelayState.update rd self in
  RelayState._attr_available (final r) = RelayState._attr_available self
  /\ RelayState.is_on (final r) = RelayState.is_on self.
Proof.
  intros Htag Hv _ r. subst r.
  rewrite (update_absent rd self) by (rewrite Htag; exact Hv).
  split; reflexivity.
Qed.

Lemma C6_absent_without_frame_changes_nothing_witness :
  let r := RelayState.update (reader_with None false) relay_1_unavailable in
  RelayState._attr_available (final r)
  = RelayState._attr_available relay_1_unavailable
  /\ RelayState.is_on (final r) = RelayState.is_on relay_1_unavailable.
Proof.
  apply (C6_absent_without_frame_changes_nothing
           (reader_with None false) relay_1_unavailable); reflexivity.
Defined.

(** ** Setup *)

(** C7. When [hass.data[DOMAIN][config_entry.entry_id]] cannot be looked up,
    [async_setup_entry] returns without raising; [async_add_entities] is not
    called and no entity registers a callback. *)
Theorem C7_setup_without_reader `{Const} (hass : HomeAssistant)
    (config_entry : ConfigEntry) (p : platform) :
  hass_data hass !! DOMAIN ≫= (fun d => d !! entry_id config_entry) = None ->
  let r := async_setup_entry hass config_entry p in
  outcome r = Returned tt
  /\ added (final r) = added p
  /\ registered "RELAIS" (events r) = [].
Proof.
  intros Hmissing r. subst r.
  unfold async_setup_entry, try_except_KeyError, getitem, bind, emit, ret, raise.
  destruct (hass_data hass !! DOMAIN) as [d|]; simpl in *.
  - rewrite Hmissing. repeat split.
  - repeat split.
Qed.

Lemma C7_setup_without_reader_witness :
  let r := @async_setup_entry linkytic_const hass_empty entry_abc platform_0 in
  outcome r = Returned tt
  /\ added (final r) = added platform_0
  /\ registered "RELAIS" (events r) = [].
Proof.
  apply (@C7_setup_without_reader linkytic_const hass_empty entry_abc platform_0).
  reflexivity.
Defined.

(** ** Construction and notification *)

(** C8. [__init__] returns an entity and hands the reader exactly one
    callback for ["RELAIS"], the entity's [update_notification]; whatever
    argument that callback is invoked with, it returns after asking the host
    for one state update with [force_refresh=True], and nothing else. *)
Theorem C8_push_notification_forces_refresh (c : Const) (title : string)
    (uniq_id : option string) (relay_index : Z) :
  let r := @RelayState.__init__ c unit title uniq_id relay_index tt in
  exists self,
    outcome r = Returned self
    /\ registered "RELAIS" (events r) = [RelayState.update_notification self]
    /\ forall realtime_option : bool,
         RelayState.update_notification self realtime_option tt
         = (Returned tt, tt,
            [schedule_update_ha_state (RelayState._attr_unique_id self) true]).
Proof.
  eexists. split; [reflexivity|]. split; reflexivity.
Qed.

(** C9. Between [__init__] and the first [update], [is_on] is [None]: neither
    [True] nor [False]. *)
Theorem C9_is_on_initially_None (c : Const) (title : string)
    (uniq_id : option string) (relay_index : Z) :
  exists self,
    constructed c title uniq_id relay_index = Some self
    /\ RelayState.is_on self = PyNone
    /\ forall b : bool, RelayState.is_on self <> PyBool b.
Proof.
  eexists. split; [reflexivity|]. split; [reflexivity|]. discriminate.
Qed.

(** ** The BASE sensor *)

(** C10. Whatever the host, configuration and discovery data, the platform
    registers one BASE sensor; and every BASE sensor reads 42 as native
    value, in ["Wh"], with the total-increasing state class, however many
    times it is read. *)
Theorem C10_BASE_native_value_is_42 {Hass Config Discovery : Type}
    (hass : Hass) (config : Config) (discovery_info : option Discovery)
    (self : BASE.t) (reads : nat) :
  final (async_setup_platform hass config discovery_info []) = [([self], true)]
  /\ List.repeat (BASE.native_value self) reads = List.repeat 42 reads
  /\ BASE.native_value self = 42
  /\ BASE.native_unit_of_measurement self = "Wh"
  /\ BASE.state_class self = TOTAL_INCREASING.
Proof. destruct self. repeat split. Qed.


(** * Further properties of the code *)

(** ** Decoding at the edges *)

(** A byte is formatted on exactly eight characters. *)
Lemma length_format_byte (v : Z) :
  0 <= v <= 255 -> String.length (format_08b v) = 8%nat.
Proof.
  intros Hv.
  assert (Hall : forallb (fun v => Nat.eqb (String.length (format_08b v)) 8)
                   (range 0 256) = true) by (vm_compute; reflexivity).
  rewrite forallb_forall in Hall.
  specialize (Hall v (elem_of_range 0 256 v ltac:(lia))).
  now apply Nat.eqb_eq in Hall.
Qed.

(** Outside [-8, 7] the indexing of a formatted byte raises. *)
Lemma str_index_byte_out_of_range (v i : Z) :
  0 <= v <= 255 -> i < -8 \/ 8 <= i ->
  str_index (format_08b v) i = Raised IndexError.
Proof.
  intros Hv Hi. unfold str_index. rewrite (length_format_byte v Hv).
  change (Z.of_nat 8) with 8.
  destruct (i <? 0) eqn:Hneg.
  - replace ((8 + i <? 0) || (8 <=? 8 + i)) with true; [reflexivity|].
    symmetry. apply orb_true_iff. left. lia.
  - replace ((i <? 0) || (8 <=? i)) with true; [reflexivity|].
    symmetry. apply orb_true_iff. right. lia.
Qed.

(** A negative index reads the byte from its least significant end. *)
Lemma decode_byte_from_the_end (v i : Z) :
  0 <= v <= 255 -> -8 <= i <= -1 ->
  str_index (format_08b v) i
  = Returned (if msb_bit v (i + 8) then "1"%char else "0"%char).
Proof.
  intros Hv Hi.
  assert (Hall : forallb (fun v =>
            forallb (fun i =>
              match str_index (format_08b v) i with
              | Returned c => Ascii.eqb c (if msb_bit v (i + 8) then "1"%char else "0"%char)
              | Raised _ => false
              end) (range (-8) 0)) (range 0 256) = true) by (vm_compute; reflexivity).
  rewrite forallb_forall in Hall.
  specialize (Hall v (elem_of_range 0 256 v ltac:(lia))).
  rewrite forallb_forall in Hall.
  specialize (Hall i (elem_of_range (-8) 0 i ltac:(lia))).
  destruct (str_index (format_08b v) i) as [c|]; [|discriminate].
  apply Ascii.eqb_eq in Hall. congruence.
Qed.

(** What [__init__] builds, field by field. *)
Lemma constructed_fields (c : Const) (title : string) (uniq_id : option string)
    (relay_index : Z) (self : RelayState.t) :
  constructed c title uniq_id relay_index = Some self ->
  RelayState._tag self = "RELAIS"
  /\ RelayState._relay_index self = relay_index - 1
  /\ RelayState._last_state self = PyNone
  /\ RelayState._attr_icon self = "mdi:electric-switch"
  /\ RelayState._attr_available self = Entity_attr_available.
Proof. intros [= <-]. repeat split. Qed.

(** X1. For every byte cached for ["RELAIS"] and every relay 1 to 8, the
    icon after [update] is the closed switch exactly when the relay's bit,
    counted from the most significant one, is set. *)
Theorem update_icon_shows_the_relay_bit (c : Const) (title : string)
    (uniq_id : option string) (relay_index : Z) (self : RelayState.t)
    (rd : LinkyTICReader) (v : Z) :
  constructed c title uniq_id relay_index = Some self ->
  1 <= relay_index <= 8 ->
  (get_values rd "RELAIS").1 = Some v ->
  0 <= v <= 255 ->
  RelayState._attr_icon (final (RelayState.update rd self))
  = (if Z.testbit v (8 - relay_index)
     then "mdi:electric-switch-closed" else "mdi:electric-switch").
Proof.
  intros Hc Hi Hv Hbyte.
  destruct (constructed_fields _ _ _ _ _ Hc) as (Htag & Hidx & _).
  destruct (update_byte rd self v) as (_ & _ & Hicon); try assumption.
  - split; [exact Htag | lia].
  - rewrite Hicon, Hidx. unfold msb_bit.
    replace (7 - (relay_index - 1)) with (8 - relay_index) by lia. reflexivity.
Qed.

Lemma update_icon_shows_the_relay_bit_witness :
  RelayState._attr_icon (final (RelayState.update (reader_with (Some 130) true) relay_1))
  = (if Z.testbit 130 (8 - 1)
     then "mdi:electric-switch-closed" else "mdi:electric-switch").
Proof.
  apply (update_icon_shows_the_relay_bit linkytic_const "Linky" (Some "abc") 1
           relay_1 (reader_with (Some 130) true) 130).
  - reflexivity.
  - lia.
  - reflexivity.
  - lia.
Defined.

(** X2. [__init__] accepts any relay index; when the bit position it stores
    (the index minus one) is above 7 or below -8, an update from a byte ends
    in [IndexError]: the entity has been marked available by then, and
    [is_on] and the icon stay as they were. *)
Theorem update_relay_index_out_of_range (rd : LinkyTICReader)
    (self : RelayState.t) (v : Z) :
  RelayState._tag self = "RELAIS" ->
  RelayState._relay_index self < -8 \/ 8 <= RelayState._relay_index self ->
  (get_values rd "RELAIS").1 = Some v ->
  0 <= v <= 255 ->
  let r := RelayState.update rd self in
  outcome r = Raised IndexError
  /\ RelayState._attr_available (final r) = true
  /\ RelayState.is_on (final r) = RelayState.is_on self
  /\ RelayState._attr_icon (final r) = RelayState._attr_icon self.
Proof.
  intros Htag Hi Hv Hbyte r. subst r.
  rewrite (update_present rd self v)
    by (try apply byte_printable; try rewrite Htag; assumption).
  rewrite str_index_byte_out_of_range by assumption.
  destruct (made_available_fields self) as (_ & _ & Hl).
  repeat split.
  - apply made_available_available.
  - exact Hl.
  - unfold final, made_available. cbn [fst snd].
    destruct (RelayState._attr_available self); reflexivity.
Qed.

Lemma update_relay_index_out_of_range_witness :
  exists self,
    constructed linkytic_const "Linky" (Some "abc") 9 = Some self
    /\ let r := RelayState.update (reader_with (Some 255) true) self in
       outcome r = Raised IndexError
       /\ RelayState._attr_available (final r) = true
       /\ RelayState.is_on (final r) = RelayState.is_on self
       /\ RelayState._attr_icon (final r) = RelayState._attr_icon self.
Proof.
  eexists. split; [reflexivity|].
  apply (update_relay_index_out_of_range (reader_with (Some 255) true) _ 255).
  - reflexivity.
  - right. simpl. lia.
  - reflexivity.
  - lia.
Defined.

(** X3. A relay index from -7 to 0 is accepted too and never raises: the
    bit is read from the end of the field, so that relay 0 shows the bit of
    relay 8, relay -1 that of relay 7, and so on. *)
Theorem update_relay_index_wraps (c : Const) (title : string)
    (uniq_id : option string) (relay_index : Z) (self : RelayState.t)
    (rd : LinkyTICReader) (v : Z) :
  constructed c title uniq_id relay_index = Some self ->
  -7 <= relay_index <= 0 ->
  (get_values rd "RELAIS").1 = Some v ->
  0 <= v <= 255 ->
  let r := RelayState.update rd self in
  outcome r = Returned tt
  /\ RelayState._attr_icon (final r)
     = (if Z.testbit v (- relay_index)
        then "mdi:electric-switch-closed" else "mdi:electric-switch").
Proof.
  intros Hc Hi Hv Hbyte r. subst r.
  destruct (constructed_fields _ _ _ _ _ Hc) as (Htag & Hidx & _).
  rewrite (update_present rd self v)
    by (try apply byte_printable; try rewrite Htag; assumption).
  rewrite Hidx, decode_byte_from_the_end by (assumption || lia).
  unfold msb_bit. replace (7 - (relay_index - 1 + 8)) with (- relay_index) by lia.
  destruct (Z.testbit v (- relay_index)); split; reflexivity.
Qed.

Lemma update_relay_index_wraps_witness :
  exists self,
    constructed linkytic_const "Linky" (Some "abc") 0 = Some self
    /\ let r := RelayState.update (reader_with (Some 1) true) self in
       outcome r = Returned tt
       /\ RelayState._attr_icon (final r)
          = (if Z.testbit 1 (- 0)
             then "mdi:electric-switch-closed" else "mdi:electric-switch").
Proof.
  eexists. split; [reflexivity|].
  eapply (update_relay_index_wraps linkytic_const "Linky" (Some "abc") 0).
  - reflexivity.
  - lia.
  - reflexivity.
  - lia.
Defined.

(** ** Availability and the reported state over time *)

(** Availability after a run: what it was, or gained by a value. *)
Lemma update_availability (rd : LinkyTICReader) (self : RelayState.t) :
  RelayState._attr_available (final (RelayState.update rd self))
  = RelayState._attr_available self || usable rd self.
Proof.
  unfold usable.
  destruct (get_values rd (RelayState._tag self)).1 as [v|] eqn:Hv;
    [destruct (printable v) eqn:Hp|].
  - destruct (update_present_summary rd self v Hv Hp) as (_ & _ & Hav & _).
    rewrite Hav, orb_true_r. reflexivity.
  - rewrite (update_too_long rd self v Hv Hp).
    unfold final. cbn. rewrite orb_false_r. reflexivity.
  - rewrite (update_absent rd self Hv).
    unfold final. cbn. rewrite orb_false_r. reflexivity.
Qed.

(** X4. [update] never revokes availability: the entity is available after a
    run exactly when it was before or the reader had a value that [repr]
    writes (one of at most 4300 digits), and the record announcing that the
    sensor is marked unavailable is never emitted. *)
Theorem update_never_revokes_availability (rd : LinkyTICReader)
    (self : RelayState.t) :
  let r := RelayState.update rd self in
  RelayState._attr_available (final r)
  = RelayState._attr_available self || usable rd self
  /\ existsb is_unavailable_record (events r) = false.
Proof.
  intros r. subst r. split; [apply update_availability|].
  destruct (get_values rd (RelayState._tag self)).1 as [v|] eqn:Hv;
    [destruct (printable v) eqn:Hp|].
  - rewrite (update_present rd self v Hv Hp).
    destruct (str_index (format_08b v) (RelayState._relay_index self));
      unfold events, announced; cbn [snd];
      destruct (RelayState._attr_available self); reflexivity.
  - rewrite (update_too_long rd self v Hv Hp). reflexivity.
  - rewrite (update_absent rd self Hv). reflexivity.
Qed.

Lemma update_keeps_available (rd : LinkyTICReader) (self : RelayState.t) :
  RelayState._attr_available self = true ->
  RelayState._attr_available (final (RelayState.update rd self)) = true.
Proof.
  intros Hav. rewrite update_availability, Hav. reflexivity.
Qed.

(** X5. An entity that is available stays so through any succession of
    updates, whatever the readers answer and however each run ends. *)
Theorem updates_keep_available (rds : list LinkyTICReader)
    (self : RelayState.t) :
  RelayState._attr_available self = true ->
  RelayState._attr_available (updates rds self) = true.
Proof.
  revert self. induction rds as [|rd rds IH]; intros self Hav; [exact Hav|].
  apply IH, update_keeps_available, Hav.
Qed.

Lemma updates_keep_available_witness :
  RelayState._attr_available
    (updates [reader_with None true; reader_with (Some 3) true; reader_with None true]
       relay_1) = true.
Proof.
  apply (updates_keep_available
           [reader_with None true; reader_with (Some 3) true; reader_with None true]
           relay_1).
  reflexivity.
Defined.

Lemma update_is_on_not_bool (rd : LinkyTICReader) (self : RelayState.t) :
  is_bool (RelayState.is_on self) = false ->
  is_bool (RelayState.is_on (final (RelayState.update rd self))) = false.
Proof.
  intros Hb.
  destruct (get_values rd (RelayState._tag self)).1 as [v|] eqn:Hv;
    [destruct (printable v) eqn:Hp|].
  - destruct (update_present_summary rd self v Hv Hp) as (_ & _ & _ & _ & ->).
    destruct (str_index (format_08b v) (RelayState._relay_index self));
      [reflexivity | exact Hb].
  - rewrite (update_too_long rd self v Hv Hp). exact Hb.
  - rewrite (update_absent rd self Hv). exact Hb.
Qed.

(** X6. From its construction on, and through any succession of updates, a
    relay entity never reports a [bool] through [is_on]: the value is [None]
    or an [int]. *)
Theorem is_on_is_never_a_bool (c : Const) (title : string)
    (uniq_id : option string) (relay_index : Z) (rds : list LinkyTICReader) :
  exists self,
    constructed c title uniq_id relay_index = Some self
    /\ is_bool (RelayState.is_on (updates rds self)) = false.
Proof.
  eexists. split; [reflexivity|].
  match goal with |- is_bool (RelayState.is_on (updates rds ?s)) = false =>
    assert (H0 : is_bool (RelayState.is_on s) = false) by reflexivity;
    generalize dependent s
  end.
  induction rds as [|rd rds IH]; intros s H0; [exact H0|].
  apply IH, update_is_on_not_bool, H0.
Qed.

(** One run of [update] leaves what identifies the entity. *)
Lemma update_identity (rd : LinkyTICReader) (self : RelayState.t) :
  let s1 := final (RelayState.update rd self) in
  RelayState._tag s1 = RelayState._tag self
  /\ RelayState._config_title s1 = RelayState._config_title self
  /\ RelayState._config_uniq_id s1 = RelayState._config_uniq_id self
  /\ RelayState._attr_unique_id s1 = RelayState._attr_unique_id self
  /\ RelayState._attr_name s1 = RelayState._attr_name self
  /\ RelayState._relay_index s1 = RelayState._relay_index self.
Proof.
  intros s1. subst s1.
  destruct (get_values rd (RelayState._tag self)).1 as [v|] eqn:Hv;
    [destruct (printable v) eqn:Hp|].
  - rewrite (update_present rd self v Hv Hp). unfold made_available.
    destruct (str_index (format_08b v) (RelayState._relay_index self));
      destruct (RelayState._attr_available self); repeat split.
  - rewrite (update_too_long rd self v Hv Hp). repeat split.
  - rewrite (update_absent rd self Hv). repeat split.
Qed.

(** X7. An update from a cached value of at most 4300 digits overwrites what
    earlier updates left: the entity it leaves is the same whether or not
    another update, from any reader, ran before it. *)
Theorem update_forgets_earlier_updates (rd1 rd2 : LinkyTICReader)
    (self : RelayState.t) (v : Z) :
  well_formed self ->
  (get_values rd2 "RELAIS").1 = Some v ->
  printable v = true ->
  final (RelayState.update rd2 (final (RelayState.update rd1 self)))
  = final (RelayState.update rd2 self).
Proof.
  intros Hwf Hv Hp.
  pose proof (update_well_formed rd1 self Hwf) as Hwf1.
  destruct (update_identity rd1 self) as (Ht & Hti & Hu & Hid & Hn & Hi).
  set (s1 := final (RelayState.update rd1 self)) in *.
  destruct Hwf as [Htag Hidx]. destruct Hwf1 as [Htag1 Hidx1].
  rewrite (update_present rd2 s1 v) by (try rewrite Htag1; assumption).
  rewrite (update_present rd2 self v) by (try rewrite Htag; assumption).
  rewrite Hi.
  destruct (str_index_format_08b v (RelayState._relay_index self) Hidx) as [ch ->].
  unfold final, made_available. cbn [fst snd]. clear Hp Hv.
  destruct s1, self. cbn in *. subst.
  repeat match goal with |- context [if ?b then _ else _] => destruct b end;
    reflexivity.
Qed.

Lemma update_forgets_earlier_updates_witness :
  final (RelayState.update (reader_with (Some 2) true)
           (final (RelayState.update (reader_with (Some 129) false) relay_1_unavailable)))
  = final (RelayState.update (reader_with (Some 2) true) relay_1_unavailable).
Proof.
  apply (update_forgets_earlier_updates (reader_with (Some 129) false)
           (reader_with (Some 2) true) relay_1_unavailable 2).
  - split; [reflexivity | simpl; lia].
  - reflexivity.
  - vm_compute. reflexivity.
Defined.

(** ** [device_info] *)

(** X8. Reading [device_info] on a relay entity always raises [NameError]:
    the first argument it evaluates, [DID_DEFAULT_MANUFACTURER], is not among
    the names the module imports. *)
Theorem RelayState_device_info_raises_NameError (c : Const) (d : ConstDID)
    (device_identification : gmap string string) (self : RelayState.t) :
  RelayState_device_info device_identification self
  = inl (NameError "DID_DEFAULT_MANUFACTURER").
Proof. reflexivity. Qed.

(** X9. Reading [device_info] on the connectivity sensor never raises
    [NameError]; it returns exactly when the reader's device identification
    holds the registration number, the constructor and the type, and raises
    [KeyError] for the first of these keys that is missing otherwise. *)
Theorem SerialConnectivity_device_info_needs_three_keys (c : Const)
    (d : ConstDID) (device_identification : gmap string string)
    (self : SerialConnectivity.t) :
  match SerialConnectivity_device_info device_identification self with
  | inr info =>
      exists reg cons type_,
        device_identification !! DID_REGNUMBER = Some reg
        /\ device_identification !! DID_CONSTRUCTOR = Some cons
        /\ device_identification !! DID_TYPE = Some type_
        /\ identifiers info = [(DOMAIN, Some reg)]
        /\ manufacturer info = Some cons
        /\ model info = Some type_
        /\ name info = Some DID_DEFAULT_NAME
  | inl (KeyError_of k) =>
      device_identification !! k = None
      /\ (k = DID_REGNUMBER
          \/ is_Some (device_identification !! DID_REGNUMBER)
             /\ (k = DID_CONSTRUCTOR
                 \/ is_Some (device_identification !! DID_CONSTRUCTOR)
                    /\ k = DID_TYPE))
  | inl (NameError _) => False
  end.
Proof.
  unfold SerialConnectivity_device_info, info_bind, load_global, subscript.
  cbn [assoc const_imports String.eqb Ascii.eqb Bool.eqb].
  destruct (device_identification !! DID_REGNUMBER) as [reg|] eqn:Hr;
    [|split; [exact Hr | left; reflexivity]].
  destruct (device_identification !! DID_CONSTRUCTOR) as [cons|] eqn:Hc;
    [|split; [exact Hc | right; split; [eauto | left; reflexivity]]].
  destruct (device_identification !! DID_TYPE) as [ty|] eqn:Ht;
    [|split; [exact Ht | right; split; [eauto | right; split; [eauto | reflexivity]]]].
  exists reg, cons, ty. repeat split.
Qed.

(** ** Unique identifiers *)

Lemma to_int_nonnil (z : Z) :
  Z.to_int z <> Decimal.Pos Decimal.Nil /\ Z.to_int z <> Decimal.Neg Decimal.Nil.
Proof.
  destruct z as [|p|p]; simpl; split; try discriminate;
    intros [= H]; exact (Unsigned.to_uint_nonnil p H).
Qed.

(** Two integers with the same decimal writing are equal. *)
Lemma str_of_Z_inj (a b : Z) : str_of_Z a = str_of_Z b -> a = b.
Proof.
  unfold str_of_Z. intros H. apply DecimalZ.to_int_inj.
  destruct (to_int_nonnil a) as [Ha1 Ha2]. destruct (to_int_nonnil b) as [Hb1 Hb2].
  pose proof (NilZero.isi _ Ha1 Ha2) as Ia. pose proof (NilZero.isi _ Hb1 Hb2) as Ib.
  rewrite H in Ia. congruence.
Qed.

Lemma append_cancel (s a b : string) : s +:+ a = s +:+ b -> a = b.
Proof. induction s as [|ch s IH]; simpl; [auto | intros [= H]; auto]. Qed.

(** X10. For one config entry, relay entities built with different relay
    indices have different unique ids and different names. *)
Theorem relay_unique_ids_differ (c : Const) (title1 title2 : string)
    (uniq_id : option string) (i j : Z) (self1 self2 : RelayState.t) :
  constructed c title1 uniq_id i = Some self1 ->
  constructed c title2 uniq_id j = Some self2 ->
  i <> j ->
  RelayState._attr_unique_id self1 <> RelayState._attr_unique_id self2
  /\ RelayState._attr_name self1 <> RelayState._attr_name self2.
Proof.
  intros [= <-] [= <-] Hij. cbn. split; intros H; apply Hij, str_of_Z_inj.
  - do 6 (apply append_cancel in H). exact H.
  - apply append_cancel in H. exact H.
Qed.

Lemma relay_unique_ids_differ_witness :
  exists self1 self2,
    constructed linkytic_const "Linky" (Some "abc") 1 = Some self1
    /\ constructed linkytic_const "Linky" (Some "abc") 2 = Some self2
    /\ RelayState._attr_unique_id self1 <> RelayState._attr_unique_id self2
    /\ RelayState._attr_name self1 <> RelayState._attr_name self2.
Proof.
  eexists. eexists. split; [reflexivity|]. split; [reflexivity|].
  apply (relay_unique_ids_differ linkytic_const "Linky" "Linky" (Some "abc") 1 2).
  - reflexivity.
  - reflexivity.
  - lia.
Defined.

(** ** The wait for a full frame *)

Section Wait.

Variable config_entry : ConfigEntry.
Variable serial_reader : nat -> LinkyTICReader.

(** The loop returns after [k] seconds, [k] at most the number of rounds:
    the polls before the last one saw no frame, and the last one saw a frame
    unless the rounds ran out; nothing is handed to the host meanwhile and no
    callback is registered, under any tag. *)
Lemma wait_full_frame_runs (indices : list Z) (p : platform) :
  exists (k : nat) (evs : list event),
    wait_full_frame config_entry serial_reader indices p
    = (Returned tt, {| clock := clock p + k; added := added p |}, evs)
    /\ (k <= length indices)%nat
    /\ (indices <> [] -> 1 <= k)%nat
    /\ (forall j, 1 <= j < k ->
        has_read_full_frame (serial_reader (clock p + j)%nat) = false)%nat
    /\ (has_read_full_frame (serial_reader (clock p + k)%nat) = true
        \/ k = length indices)
    /\ registrations evs = [].
Proof.
  revert p. induction indices as [|i rest IH]; intros p.
  - exists 0%nat, []. cbn. rewrite Nat.add_0_r. destruct p.
    repeat split; try lia; auto. intros H. now destruct H.
  - cbn [wait_full_frame]. unfold bind, sleep, modify, get, emit. cbn [clock added].
    destruct (has_read_full_frame (serial_reader (clock p + 1)%nat)) eqn:Hframe.
    + eexists 1%nat, _. split; [reflexivity|].
      cbn [length]. repeat split; try lia; auto.
    + destruct (IH {| clock := clock p + 1; added := added p |})
        as (k & evs & Hrun & Hk & Hpos & Hno & Hlast & Hreg).
      cbn [clock added] in *.
      assert (Hshift : (clock p + 1 + k)%nat = (clock p + S k)%nat) by lia.
      assert (Hrest : (k <= length (i :: rest))%nat
                /\ (i :: rest <> [] -> 1 <= S k)%nat
                /\ (forall j, 1 <= j < S k ->
                     has_read_full_frame (serial_reader (clock p + j)%nat) = false)%nat
                /\ (has_read_full_frame (serial_reader (clock p + S k)%nat) = true
                     \/ S k = length (i :: rest))).
      { cbn [length]. repeat split; try lia.
        - intros j Hj. destruct (decide (j = 1%nat)) as [->|Hne]; [exact Hframe|].
          replace (clock p + j)%nat with (clock p + 1 + (j - 1))%nat by lia.
          apply Hno. lia.
        - rewrite <- Hshift.
          destruct Hlast as [Hl|Hl]; [left; exact Hl | right; lia]. }
      destruct Hrest as (_ & H2 & H3 & H4).
      exists (S k).
      destruct (i =? 8); unfold ret; rewrite Hrun, Hshift; eexists;
        (split; [reflexivity|]); cbn [length]; repeat split;
        try assumption; try lia.
Qed.

Lemma polls_shift (t a k : nat) :
  forallb (fun j => negb (has_read_full_frame (serial_reader (t + j)%nat)))
    (seq (S a) k)
  = forallb (fun j => negb (has_read_full_frame (serial_reader (t + 1 + j)%nat)))
      (seq a k).
Proof.
  revert a. induction k as [|k IH]; intros a; [reflexivity|].
  cbn [seq forallb]. rewrite IH.
  replace (t + S a)%nat with (t + 1 + a)%nat by lia. reflexivity.
Qed.

(** With the round of index 8 last, the warning is logged exactly when
    every poll saw no frame. *)
Lemma wait_full_frame_warns (pre : list Z) (p : platform) :
  ~ In 8 pre ->
  existsb is_warning (events (wait_full_frame config_entry serial_reader (pre ++ [8])%list p))
  = no_frame_during serial_reader (clock p) (length pre + 1).
Proof.
  revert p. induction pre as [|i pre IH]; intros p Hnot.
  - cbn [app wait_full_frame length]. unfold bind, sleep, modify, get, emit, ret.
    cbn [clock added]. unfold no_frame_during. cbn [seq forallb Nat.add].
    destruct (has_read_full_frame (serial_reader (clock p + 1)%nat)); reflexivity.
  - assert (Hi : (i =? 8) = false) by (apply Z.eqb_neq; intros ->; apply Hnot; left; reflexivity).
    assert (Hnot' : ~ In 8 pre) by (intros H; apply Hnot; right; exact H).
    cbn [app wait_full_frame length]. unfold bind, sleep, modify, get, emit.
    cbn [clock added]. unfold no_frame_during.
    change (seq 1 (S (length pre) + 1)) with (1%nat :: seq 2 (length pre + 1)).
    cbn [forallb].
    destruct (has_read_full_frame (serial_reader (clock p + 1)%nat)) eqn:Hframe.
    + reflexivity.
    + rewrite Hi. unfold ret at 1. 
      specialize (IH {| clock := clock p + 1; added := added p |} Hnot').
      cbn [clock] in IH. unfold events in *.
      destruct (wait_full_frame config_entry serial_reader (pre ++ [8])%list
                  {| clock := clock p + 1; added := added p |}) as [[r s] evs].
      cbn [fst snd app negb andb] in *. rewrite IH.
      symmetry. apply polls_shift.
Qed.

End Wait.

(** ** [async_setup_entry] with the reader found *)

Section Setup.

Context `{Const}.
Variable hass : HomeAssistant.
Variable config_entry : ConfigEntry.
Variable serial_reader : nat -> LinkyTICReader.
Hypothesis Hstored : stored_reader hass config_entry = Some serial_reader.

(** The construction of the relays does not depend on the state it runs in. *)
Lemma relays_built {St} (s : St) :
  mapM (fun i => RelayState.__init__ (title config_entry)
                   (Some (entry_id config_entry)) i) (range 1 9) s
  = (Returned (setup_relays config_entry), s, setup_relay_events config_entry).
Proof. reflexivity. Qed.

(** The whole run, given the run of the wait. *)
Lemma setup_runs (p pw : platform) (wevs : list event) :
  wait_full_frame config_entry serial_reader (range 0 9) p = (Returned tt, pw, wevs) ->
  exists sc,
    setup_connectivity config_entry = Some sc
    /\ async_setup_entry hass config_entry p
       = (Returned tt,
          {| clock := clock pw;
             added := (added pw
                       ++ (if standard_mode config_entry
                           then [(map relay (setup_relays config_entry), true)] else [])
                       ++ [([connectivity sc], true)])%list |},
          (Log DEBUG "%s: setting up binary sensor plateform" [title config_entry]
           :: Log DEBUG "%s: waiting at most 9s before setting up binary sensor plateform in order for the async serial reader to have time to parse a full frame" [title config_entry]
           :: wevs
           ++ (if standard_mode config_entry then setup_relay_events config_entry else [])
           ++ [Log DEBUG "%s: initializing Serial Connectivity binary sensor" [title config_entry]])%list).
Proof.
  intros Hwait. eexists. split; [reflexivity|].
  unfold stored_reader in Hstored.
  unfold async_setup_entry, try_except_KeyError, getitem.
  destruct (hass_data hass !! DOMAIN) as [d|] eqn:Hd; [|discriminate].
  cbn in Hstored.
  unfold bind at 1 2 3 4 5. unfold emit at 1. unfold ret at 1.
  rewrite Hstored. cbn -[range standard_mode setup_relays setup_relay_events].
  unfold bind at 1. rewrite Hwait.
  unfold standard_mode.
  destruct (decide (data config_entry !! SETUP_TICMODE = Some TICMODE_STANDARD))
    as [Hs|Hs].
  - rewrite (bool_decide_eq_true_2 _ Hs).
    unfold bind at 1 2. rewrite relays_built.
    cbn -[range setup_relays setup_relay_events].
    rewrite <- !app_assoc. reflexivity.
  - rewrite (bool_decide_eq_false_2 _ Hs).
    cbn -[range setup_relays setup_relay_events]. reflexivity.
Qed.

End Setup.

(** The run of the setup, with the seconds it waited. *)
Lemma setup_found `{Const} (hass : HomeAssistant) (config_entry : ConfigEntry)
    (serial_reader : nat -> LinkyTICReader) (p : platform) :
  stored_reader hass config_entry = Some serial_reader ->
  exists (k : nat) (wevs : list event) (sc : SerialConnectivity.t),
    wait_full_frame config_entry serial_reader (range 0 9) p
    = (Returned tt, {| clock := clock p + k; added := added p |}, wevs)
    /\ setup_connectivity config_entry = Some sc
    /\ async_setup_entry hass config_entry p
       = (Returned tt,
          {| clock := clock p + k;
             added := (added p
                       ++ (if standard_mode config_entry
                           then [(map relay (setup_relays config_entry), true)] else [])
                       ++ [([connectivity sc], true)])%list |},
          (Log DEBUG "%s: setting up binary sensor plateform" [title config_entry]
           :: Log DEBUG "%s: waiting at most 9s before setting up binary sensor plateform in order for the async serial reader to have time to parse a full frame" [title config_entry]
           :: wevs
           ++ (if standard_mode config_entry then setup_relay_events config_entry else [])
           ++ [Log DEBUG "%s: initializing Serial Connectivity binary sensor" [title config_entry]])%list)
    /\ (1 <= k <= 9)%nat
    /\ (forall j, 1 <= j < k ->
        has_read_full_frame (serial_reader (clock p + j)%nat) = false)%nat
    /\ (has_read_full_frame (serial_reader (clock p + k)%nat) = true \/ k = 9%nat)
    /\ registrations wevs = [].
Proof.
  intros Hstored.
  destruct (wait_full_frame_runs config_entry serial_reader (range 0 9) p)
    as (k & wevs & Hrun & Hk & Hpos & Hno & Hlast & Hreg).
  destruct (setup_runs hass config_entry serial_reader Hstored p _ wevs Hrun)
    as (sc & Hsc & Hsetup).
  exists k, wevs, sc. cbn [clock added] in Hsetup.
  change (length (range 0 9)) with 9%nat in *.
  repeat split; try assumption; try lia.
  apply Hpos. discriminate.
Qed.

(** The callbacks found in a trace made of two parts. *)
Lemma registrations_app (t1 t2 : list event) :
  registrations (t1 ++ t2)%list = (registrations t1 ++ registrations t2)%list.
Proof.
  induction t1 as [|e t1 IH]; [reflexivity|].
  destruct e as [lvl msg args|tag' cb|uid b]; cbn; rewrite ?IH; reflexivity.
Qed.

(** The callbacks for one tag are those of the registrations under it. *)
Lemma registered_registrations (tag : string) (t : list event) :
  registered tag t
  = map snd (List.filter (fun x => String.eqb tag (fst x)) (registrations t)).
Proof.
  induction t as [|e t IH]; [reflexivity|].
  destruct e as [lvl msg args|tag' cb|uid b]; cbn; try exact IH.
  destruct (String.eqb tag tag'); cbn; rewrite IH; reflexivity.
Qed.

Lemma registered_app (tag : string) (t1 t2 : list event) :
  registered tag (t1 ++ t2)%list = (registered tag t1 ++ registered tag t2)%list.
Proof.
  induction t1 as [|e t1 IH]; [reflexivity|].
  destruct e as [lvl msg args|tag' cb|uid b]; cbn; try exact IH.
  destruct (String.eqb tag tag'); cbn; rewrite IH; reflexivity.
Qed.

Lemma existsb_warning_app (t1 t2 : list event) :
  existsb is_warning (t1 ++ t2)%list
  = existsb is_warning t1 || existsb is_warning t2.
Proof. apply existsb_app. Qed.

(** X11. With the reader found, [async_setup_entry] returns without raising
    and its last call hands the host one connectivity sensor, to be updated
    before it is added, whether or not a full frame was read meanwhile; it
    calls the host twice in standard mode and once otherwise. *)
Theorem setup_registers_the_connectivity_sensor `{Const} (hass : HomeAssistant)
    (config_entry : ConfigEntry) (serial_reader : nat -> LinkyTICReader)
    (p : platform) :
  stored_reader hass config_entry = Some serial_reader ->
  let r := async_setup_entry hass config_entry p in
  outcome r = Returned tt
  /\ exists sc,
       last (added (final r)) = Some ([connectivity sc], true)
       /\ SerialConnectivity._attr_unique_id sc
          = DOMAIN +:+ "_" +:+ entry_id config_entry +:+ "_serial_connectivity"
       /\ SerialConnectivity._device_uniq_id sc = entry_id config_entry
       /\ length (added (final r))
          = (length (added p) + if standard_mode config_entry then 2 else 1)%nat.
Proof.
  intros Hstored r. subst r.
  destruct (setup_found hass config_entry serial_reader p Hstored)
    as (k & wevs & sc & _ & Hsc & -> & _).
  split; [reflexivity|]. exists sc. unfold final. cbn [fst snd added].
  injection Hsc as <-.
  split; [|split; [reflexivity|split; [reflexivity|]]].
  - rewrite !app_assoc. apply last_snoc.
  - rewrite !length_app. destruct (standard_mode config_entry); cbn; lia.
Qed.

Lemma setup_registers_the_connectivity_sensor_witness :
  let r := @async_setup_entry linkytic_const hass_abc entry_historic platform_0 in
  outcome r = Returned tt
  /\ exists sc,
       last (added (final r)) = Some ([connectivity sc], true)
       /\ SerialConnectivity._attr_unique_id sc
          = "linkytic" +:+ "_" +:+ "abc" +:+ "_serial_connectivity"
       /\ SerialConnectivity._device_uniq_id sc = "abc"
       /\ length (added (final r))
          = (length (added platform_0)
             + if @standard_mode linkytic_const entry_historic then 2 else 1)%nat.
Proof.
  apply (@setup_registers_the_connectivity_sensor linkytic_const hass_abc
           entry_historic reader_abc platform_0).
  vm_compute. reflexivity.
Defined.

(** X12. In standard mode, with the reader found, the setup first hands the
    host eight relay entities, for the bit positions 0 to 7 in this order and
    named ["Relais 1"] to ["Relais 8"], none of which reports a state yet;
    each has registered its own callback for ["RELAIS"], and no other
    callback is registered, under this tag or any other. *)
Theorem setup_standard_mode_registers_eight_relays `{Const}
    (hass : HomeAssistant) (config_entry : ConfigEntry)
    (serial_reader : nat -> LinkyTICReader) (p : platform) :
  stored_reader hass config_entry = Some serial_reader ->
  standard_mode config_entry = true ->
  let r := async_setup_entry hass config_entry p in
  exists relays sc,
    added (final r)
    = (added p ++ [(map relay relays, true); ([connectivity sc], true)])%list
    /\ map RelayState._relay_index relays = [0; 1; 2; 3; 4; 5; 6; 7]
    /\ map RelayState._attr_name relays
       = ["Relais 1"; "Relais 2"; "Relais 3"; "Relais 4";
          "Relais 5"; "Relais 6"; "Relais 7"; "Relais 8"]
    /\ map RelayState.is_on relays = repeat PyNone 8
    /\ registered "RELAIS" (events r)
       = map (fun e => RelayState.update_notification e) relays
    /\ registrations (events r)
       = map (fun e => ("RELAIS", RelayState.update_notification e)) relays.
Proof.
  intros Hstored Hstd r. subst r.
  destruct (setup_found hass config_entry serial_reader p Hstored)
    as (k & wevs & sc & _ & _ & -> & _ & _ & _ & Hreg).
  rewrite Hstd. exists (setup_relays config_entry), sc.
  unfold final, events. cbn [fst snd added].
  assert (Hall : registrations
            (Log DEBUG "%s: setting up binary sensor plateform" [title config_entry]
             :: Log DEBUG "%s: waiting at most 9s before setting up binary sensor plateform in order for the async serial reader to have time to parse a full frame" [title config_entry]
             :: wevs ++ setup_relay_events config_entry
                ++ [Log DEBUG "%s: initializing Serial Connectivity binary sensor" [title config_entry]])%list
          = map (fun e => ("RELAIS", RelayState.update_notification e))
              (setup_relays config_entry)).
  { cbn [registrations]. rewrite !registrations_app, Hreg. reflexivity. }
  split; [reflexivity|]. split; [reflexivity|]. split; [reflexivity|].
  split; [reflexivity|]. split; [|exact Hall].
  rewrite registered_registrations, Hall. reflexivity.
Qed.

Lemma setup_standard_mode_registers_eight_relays_witness :
  let r := @async_setup_entry linkytic_const hass_abc entry_abc platform_0 in
  exists relays sc,
    added (final r)
    = (added platform_0 ++ [(map relay relays, true); ([connectivity sc], true)])%list
    /\ map RelayState._relay_index relays = [0; 1; 2; 3; 4; 5; 6; 7]
    /\ map RelayState._attr_name relays
       = ["Relais 1"; "Relais 2"; "Relais 3"; "Relais 4";
          "Relais 5"; "Relais 6"; "Relais 7"; "Relais 8"]
    /\ map RelayState.is_on relays = repeat PyNone 8
    /\ registered "RELAIS" (events r)
       = map (fun e => RelayState.update_notification e) relays
    /\ registrations (events r)
       = map (fun e => ("RELAIS", RelayState.update_notification e)) relays.
Proof.
  apply (@setup_standard_mode_registers_eight_relays linkytic_const hass_abc
           entry_abc reader_abc platform_0).
  - vm_compute. reflexivity.
  - vm_compute. reflexivity.
Defined.

(** X13. In any other mode, with the reader found, the setup builds no relay
    entity: the connectivity sensor is all it hands to the host, and no
    callback is registered with the reader, under any tag. *)
Theorem setup_other_mode_registers_no_relay `{Const} (hass : HomeAssistant)
    (config_entry : ConfigEntry) (serial_reader : nat -> LinkyTICReader)
    (p : platform) :
  stored_reader hass config_entry = Some serial_reader ->
  standard_mode config_entry = false ->
  let r := async_setup_entry hass config_entry p in
  exists sc,
    added (final r) = (added p ++ [([connectivity sc], true)])%list
    /\ relays_of (entities_of (final r)) = relays_of (entities_of p)
    /\ registered "RELAIS" (events r) = []
    /\ registrations (events r) = [].
Proof.
  intros Hstored Hstd r. subst r.
  destruct (setup_found hass config_entry serial_reader p Hstored)
    as (k & wevs & sc & _ & _ & -> & _ & _ & _ & Hreg).
  rewrite Hstd. exists sc. unfold final, events, entities_of, relays_of.
  cbn [fst snd added app].
  assert (Hall : registrations
            (Log DEBUG "%s: setting up binary sensor plateform" [title config_entry]
             :: Log DEBUG "%s: waiting at most 9s before setting up binary sensor plateform in order for the async serial reader to have time to parse a full frame" [title config_entry]
             :: wevs
                ++ [Log DEBUG "%s: initializing Serial Connectivity binary sensor" [title config_entry]])%list
          = []).
  { cbn [registrations]. rewrite registrations_app, Hreg. reflexivity. }
  split; [reflexivity|]. split; [|split; [|exact Hall]].
  - rewrite map_app, concat_app, omap_app. cbn. rewrite !app_nil_r. reflexivity.
  - rewrite registered_registrations, Hall. reflexivity.
Qed.

Lemma setup_other_mode_registers_no_relay_witness :
  let r := @async_setup_entry linkytic_const hass_abc entry_historic platform_0 in
  exists sc,
    added (final r) = (added platform_0 ++ [([connectivity sc], true)])%list
    /\ relays_of (entities_of (final r)) = relays_of (entities_of platform_0)
    /\ registered "RELAIS" (events r) = []
    /\ registrations (events r) = [].
Proof.
  apply (@setup_other_mode_registers_no_relay linkytic_const hass_abc
           entry_historic reader_abc platform_0).
  - vm_compute. reflexivity.
  - vm_compute. reflexivity.
Defined.

(** X14. With the reader found, the setup sleeps at least one second and at
    most nine before it builds the entities: it goes on at the first second
    at which a full frame has been read, and after the ninth in any case. *)
Theorem setup_waits_for_the_first_full_frame `{Const} (hass : HomeAssistant)
    (config_entry : ConfigEntry) (serial_reader : nat -> LinkyTICReader)
    (p : platform) :
  stored_reader hass config_entry = Some serial_reader ->
  let r := async_setup_entry hass config_entry p in
  let k := (clock (final r) - clock p)%nat in
  (1 <= k <= 9)%nat
  /\ clock (final r) = (clock p + k)%nat
  /\ no_frame_during serial_reader (clock p) (k - 1) = true
  /\ has_read_full_frame (serial_reader (clock (final r))) || (k =? 9)%nat = true.
Proof.
  intros Hstored r. subst r.
  destruct (setup_found hass config_entry serial_reader p Hstored)
    as (k & wevs & sc & _ & _ & -> & Hk & Hno & Hlast & _).
  unfold final. cbn [fst snd clock].
  replace (clock p + k - clock p)%nat with k by lia.
  repeat split; try lia.
  - unfold no_frame_during. apply forallb_forall. intros j Hj.
    apply in_seq in Hj. rewrite Hno by lia. reflexivity.
  - destruct Hlast as [-> | ->]; [reflexivity | apply orb_true_r].
Qed.

Lemma setup_waits_for_the_first_full_frame_witness :
  let r := @async_setup_entry linkytic_const hass_abc entry_abc platform_0 in
  let k := (clock (final r) - clock platform_0)%nat in
  (1 <= k <= 9)%nat
  /\ clock (final r) = (clock platform_0 + k)%nat
  /\ no_frame_during reader_abc (clock platform_0) (k - 1) = true
  /\ has_read_full_frame (reader_abc (clock (final r))) || (k =? 9)%nat = true.
Proof.
  apply (@setup_waits_for_the_first_full_frame linkytic_const hass_abc entry_abc
           reader_abc platform_0).
  vm_compute. reflexivity.
Defined.

Lemma setup_relay_events_no_warning `{Const} (config_entry : ConfigEntry) :
  existsb is_warning (setup_relay_events config_entry) = false.
Proof. reflexivity. Qed.

(** X15. With the reader found, the setup logs the warning that the wait
    time is over exactly when none of its nine polls saw a full frame; the
    entities are built all the same. *)
Theorem setup_warns_when_no_full_frame `{Const} (hass : HomeAssistant)
    (config_entry : ConfigEntry) (serial_reader : nat -> LinkyTICReader)
    (p : platform) :
  stored_reader hass config_entry = Some serial_reader ->
  existsb is_warning (events (async_setup_entry hass config_entry p))
  = no_frame_during serial_reader (clock p) 9.
Proof.
  intros Hstored.
  destruct (setup_found hass config_entry serial_reader p Hstored)
    as (k & wevs & sc & Hrun & _ & -> & _).
  pose proof (wait_full_frame_warns config_entry serial_reader
                [0; 1; 2; 3; 4; 5; 6; 7] p) as Hwarn.
  change ([0; 1; 2; 3; 4; 5; 6; 7] ++ [8])%list with (range 0 9) in Hwarn.
  rewrite Hrun in Hwarn. unfold events in *. cbn [fst snd length Nat.add] in *.
  assert (Hnot : ~ In 8 [0; 1; 2; 3; 4; 5; 6; 7]).
  { cbn. intros Hin. repeat (destruct Hin as [Hin|Hin]; [discriminate|]). exact Hin. }
  specialize (Hwarn Hnot).
  cbn [existsb is_warning orb]. rewrite !existsb_warning_app, Hwarn.
  destruct (standard_mode config_entry);
    [rewrite setup_relay_events_no_warning|]; cbn;
    rewrite orb_false_r; reflexivity.
Qed.

Lemma setup_warns_when_no_full_frame_witness :
  existsb is_warning
    (events (@async_setup_entry linkytic_const hass_abc entry_abc platform_0))
  = no_frame_during reader_abc (clock platform_0) 9.
Proof.
  apply (@setup_warns_when_no_full_frame linkytic_const hass_abc entry_abc
           reader_abc platform_0).
  vm_compute. reflexivity.
Defined.

(** X16. Started with nothing registered and the reader found, the setup
    hands the host entities whose unique ids are pairwise different, in
    standard mode as in any other. *)
Theorem setup_unique_ids_are_distinct `{Const} (hass : HomeAssistant)
    (config_entry : ConfigEntry) (serial_reader : nat -> LinkyTICReader)
    (p : platform) :
  stored_reader hass config_entry = Some serial_reader ->
  added p = [] ->
  List.NoDup
    (map unique_id_of (entities_of (final (async_setup_entry hass config_entry p)))).
Proof.
  intros Hstored Hempty.
  destruct (setup_found hass config_entry serial_reader p Hstored)
    as (k & wevs & sc & _ & Hsc & -> & _).
  injection Hsc as <-.
  unfold final, entities_of. cbn [fst snd added]. rewrite Hempty.
  destruct (standard_mode config_entry); cbn -[String.append].
  - repeat constructor; cbn -[String.append]; intros Hin;
      repeat (destruct Hin as [Hin|Hin];
              [do 3 (apply append_cancel in Hin);
               first [ do 3 (apply append_cancel in Hin);
                       apply str_of_Z_inj in Hin; discriminate
                     | vm_compute in Hin; discriminate ]|]);
      exact Hin.
  - repeat constructor. intros [].
Qed.

Lemma setup_unique_ids_are_distinct_witness :
  List.NoDup
    (map unique_id_of
       (entities_of
          (final (@async_setup_entry linkytic_const hass_abc entry_abc platform_0)))).
Proof.
  apply (@setup_unique_ids_are_distinct linkytic_const hass_abc entry_abc
           reader_abc platform_0).
  - vm_compute. reflexivity.
  - reflexivity.
Defined.

(** ** More on successive updates *)

(** X17. Whatever the readers answer and however the runs end, updates never
    change what identifies the entity: its tag, title, unique id, name and
    bit position. *)
Theorem updates_keep_identity (rds : list LinkyTICReader) (self : RelayState.t) :
  RelayState._tag (updates rds self) = RelayState._tag self
  /\ RelayState._config_title (updates rds self) = RelayState._config_title self
  /\ RelayState._config_uniq_id (updates rds self) = RelayState._config_uniq_id self
  /\ RelayState._attr_unique_id (updates rds self) = RelayState._attr_unique_id self
  /\ RelayState._attr_name (updates rds self) = RelayState._attr_name self
  /\ RelayState._relay_index (updates rds self) = RelayState._relay_index self.
Proof.
  revert self. induction rds as [|rd rds IH]; intros self; [repeat split|].
  cbn [updates fold_left]. fold (updates rds (final (RelayState.update rd self))).
  destruct (IH (final (RelayState.update rd self))) as (-> & -> & -> & -> & -> & ->).
  apply update_identity.
Qed.

(** X18. Through any succession of updates, a relay 1 to 8 reports through
    [is_on] the latest value of at most 4300 digits a reader had cached for
    ["RELAIS"]; a reader without a value, or with a longer one, leaves what
    was reported before. *)
Theorem is_on_is_the_latest_value (rds : list LinkyTICReader)
    (self : RelayState.t) :
  well_formed self ->
  RelayState.is_on (updates rds self) = latest_value (RelayState.is_on self) rds.
Proof.
  revert self. induction rds as [|rd rds IH]; intros self Hwf; [reflexivity|].
  cbn [updates latest_value fold_left].
  fold (updates rds (final (RelayState.update rd self))).
  rewrite (IH _ (update_well_formed rd self Hwf)). unfold latest_value.
  f_equal. destruct Hwf as [Htag Hidx].
  destruct (get_values rd "RELAIS").1 as [v|] eqn:Hv;
    [destruct (printable v) eqn:Hp|].
  - destruct (update_present_summary rd self v) as (_ & _ & _ & _ & ->);
      [rewrite Htag; exact Hv | exact Hp |].
    destruct (str_index_format_08b v (RelayState._relay_index self) Hidx) as [ch ->].
    reflexivity.
  - rewrite (update_too_long rd self v) by (try rewrite Htag; assumption).
    reflexivity.
  - rewrite (update_absent rd self) by (rewrite Htag; exact Hv). reflexivity.
Qed.

Lemma is_on_is_the_latest_value_witness :
  RelayState.is_on
    (updates [reader_with (Some 130) true; reader_with None true;
              reader_with (Some 4) false; reader_with None false] relay_1)
  = latest_value (RelayState.is_on relay_1)
      [reader_with (Some 130) true; reader_with None true;
       reader_with (Some 4) false; reader_with None false].
Proof.
  apply (is_on_is_the_latest_value
           [reader_with (Some 130) true; reader_with None true;
            reader_with (Some 4) false; reader_with None false] relay_1).
  split; [reflexivity | simpl; lia].
Defined.

(** ** Values that are not a byte *)

(** The digits of a positive number start with a one. *)
Lemma bin_digits_head (p : positive) (acc : string) :
  exists rest, bin_digits p acc = String "1"%char rest.
Proof.
  revert acc. induction p as [q IH|q IH|]; intros acc; cbn; eauto.
Qed.

Lemma length_bin_digits (p : positive) (acc : string) :
  String.length (bin_digits p acc) = (Pos.size_nat p + String.length acc)%nat.
Proof.
  revert acc. induction p as [q IH|q IH|]; intros acc; cbn; [| |reflexivity];
    rewrite IH; cbn; lia.
Qed.

(** From 128 on, a value is written without padding, its leading one
    first. *)
Lemma format_08b_head (v : Z) :
  128 <= v -> exists rest, format_08b v = String "1"%char rest.
Proof.
  intros Hv. unfold format_08b. destruct (v <? 0) eqn:Hneg; [lia|].
  destruct v as [|p|p]; try lia. cbn [bin_of_N]. unfold zfill.
  assert (Hlen : (8 <= String.length (bin_digits p ""))%nat).
  { rewrite length_bin_digits.
    destruct (Pos.eq_dec p 128%positive) as [->|Hne]; [cbn; lia|].
    pose proof (Pos.size_nat_monotone 128%positive p ltac:(lia)) as Hm.
    change (Pos.size_nat 128) with 8%nat in Hm. lia. }
  replace (8 - String.length (bin_digits p ""))%nat with 0%nat by lia.
  cbn [zeros String.append]. apply bin_digits_head.
Qed.

(** X19. A value that is not a byte, of at most 4300 digits, is decoded all
    the same, from a field that is no longer eight bits: relay 1 is shown
    closed for every such value above 255, whatever its eight low bits, and
    open for every such negative value, where the sign takes the place of its
    bit. *)
Theorem update_relay_1_beyond_a_byte (rd : LinkyTICReader)
    (self : RelayState.t) (v : Z) :
  RelayState._tag self = "RELAIS" ->
  RelayState._relay_index self = 0 ->
  (get_values rd "RELAIS").1 = Some v ->
  v < 0 \/ 255 < v ->
  printable v = true ->
  let r := RelayState.update rd self in
  outcome r = Returned tt
  /\ RelayState._attr_icon (final r)
     = (if v <? 0 then "mdi:electric-switch" else "mdi:electric-switch-closed").
Proof.
  intros Htag Hidx Hv Hout Hp r. subst r.
  rewrite (update_present rd self v) by (try rewrite Htag; assumption).
  rewrite Hidx.
  assert (Hch : str_index (format_08b v) 0
                = Returned (if v <? 0 then "-"%char else "1"%char)).
  { destruct (v <? 0) eqn:Hneg.
    - unfold format_08b. rewrite Hneg. reflexivity.
    - destruct (format_08b_head v) as [rest ->]; [lia | reflexivity]. }
  rewrite Hch. destruct (v <? 0); split; reflexivity.
Qed.

Lemma update_relay_1_beyond_a_byte_witness :
  let r := RelayState.update (reader_with (Some 256) true) relay_1 in
  outcome r = Returned tt
  /\ RelayState._attr_icon (final r)
     = (if 256 <? 0 then "mdi:electric-switch" else "mdi:electric-switch-closed").
Proof.
  apply (update_relay_1_beyond_a_byte (reader_with (Some 256) true) relay_1 256).
  - reflexivity.
  - reflexivity.
  - reflexivity.
  - right. lia.
  - vm_compute. reflexivity.
Defined.
